(** * Thermography GUI: the logic of [gui/dialogs/thermo_gui_dialog.py]

    The class [ThermoGUI] wires the widgets of the main window to a background
    worker ([ThermoGuiThread]) and copies control values into the worker's
    processing configuration.  The development below embeds the methods of
    the class as functions on an explicit window state.

    - Python [int] is [Z]; Python [float] is the IEEE binary64 type [float],
      so [np.pi], [* 0.1] and [/ 180] are computed exactly as the program
      computes them.
    - Widgets are addressed by name; a widget stores what the code reads or
      writes of it ([value()], [isChecked()], [setEnabled], [setText], ...).
      The ranges of the controls live in the generated design module, which
      is not part of the sources: values are taken to be within range.
    - The connections made in [__connect_widgets] are the function
      [connections]; a [setValue] or [setChecked] that changes a control
      emits its signal and runs the connected slots before it returns, as
      direct connections do.  Re-entrant dispatch is bounded by fuel. *)

From Stdlib Require Import ZArith Bool List String Floats Lia.
From Stdlib Require Import FunctionalExtensionality.
Import ListNotations.
Local Open Scope string_scope.
Local Open Scope Z_scope.

(** ** Numbers *)

(** [np.pi]: the binary64 number nearest to pi. *)
Definition np_pi : float := 0x1.921fb54442d18p+1%float.

(** Conversion of a Python [int] operand in mixed [int]/[float] arithmetic
    (exact below 2^53 in magnitude; control values are C ints). *)
Definition float_of_int (z : Z) : float :=
  match z with
  | Z0 => 0%float
  | Zpos _ => PrimFloat.of_uint63 (Uint63.of_Z z)
  | Zneg p => PrimFloat.opp (PrimFloat.of_uint63 (Uint63.of_Z (Zpos p)))
  end.

(** The literal [0.1] of [__update_image_scaling]. *)
Definition one_tenth : float := 0x1.999999999999ap-4%float.

(** ** Option as the error monad: [None] is a raised exception (or, in
    [emit], exhausted fuel). *)

Definition bind {A B : Type} (x : option A) (k : A -> option B) : option B :=
  match x with
  | Some a => k a
  | None => None
  end.

Notation "x <- c ;; k" := (bind c (fun x => k))
  (at level 61, c at next level, right associativity).

(** Finite-function update, for widget stores indexed by name. *)
Definition upd {K V : Type} (dec : forall a b : K, {a = b} + {a <> b})
  (f : K -> V) (k : K) (v : V) (k' : K) : V :=
  if dec k' k then v else f k'.

Arguments upd {K V} dec f k v k' /.

(** ** Frames and images *)

(** A frame buffer ([np.ndarray]): either one channel per pixel, shape
    [(rows, cols)], or three, shape [(rows, cols, 3)]. *)
Inductive ndarray :=
| Gray (rows cols : Z) (px : list Z)
| Color (rows cols : Z) (px : list (Z * Z * Z)).

Definition shape (f : ndarray) : Z * Z :=
  match f with
  | Gray r c _ => (r, c)
  | Color r c _ => (r, c)
  end.

Inductive ColorConversionCode := COLOR_BGR2RGB | COLOR_GRAY2RGB.

(** [cv2.cvtColor]: [COLOR_BGR2RGB] reverses the channels of a three-channel
    buffer, [COLOR_GRAY2RGB] replicates the single channel; a buffer with the
    wrong number of channels raises. *)
Definition cvtColor (f : ndarray) (code : ColorConversionCode) : option ndarray :=
  match code, f with
  | COLOR_BGR2RGB, Color r c px =>
      Some (Color r c (map (fun p => match p with (b, g, r') => (r', g, b) end) px))
  | COLOR_GRAY2RGB, Gray r c px =>
      Some (Color r c (map (fun g => (g, g, g)) px))
  | _, _ => None
  end.

Record QSize := { width : Z; height : Z }.

(** A [QImage] in [Format_RGB888]: built over a frame buffer, or obtained by
    [scaled(target, KeepAspectRatio, SmoothTransformation)]; the resampling
    itself belongs to the toolkit and is kept symbolic. *)
Inductive QImage :=
| Image (w h : Z) (data : ndarray)
| ScaledKeepAspectRatio (target : QSize) (source : QImage).

(** [QImage(frame.data, frame.shape[1], frame.shape[0], frame.strides[0],
    QImage.Format_RGB888)]. *)
Definition QImage_of_frame (frame : ndarray) : QImage :=
  Image (snd (shape frame)) (fst (shape frame)) frame.

(** What a [QLabel] shows. *)
Inductive content :=
| Text (s : string)
| Pixmap (img : QImage).

Inductive Alignment := AlignCenter | AlignOther.

Record QLabel := { shown : content; size : QSize; alignment : Alignment }.

(** Label text that is either literal or ["<prefix>{:0.2f}".format(x)]. *)
Inductive text :=
| Caption (s : string)
| Format_2f (prefix : string) (x : float).

Record QProgressBar := { minimum : Z; maximum : Z; progress : Z }.

(** ** Widgets of the main window *)

(** Numeric controls ([value()], [setValue], [valueChanged]). *)
Inductive spin :=
| image_scaling_slider | angle_value | blur_value | temperature_value
| max_histeresis_value | min_histeresis_value | dilation_value
| delta_rho_value | delta_theta_value | min_votes_value | min_length_value
| max_gap_value | extend_segments_value
| num_clusters_value | num_init_value
| max_angle_variation_mean_value | max_merging_angle_value
| max_merging_distance_value
| expected_ratio_value | ratio_max_deviation_value | min_area_value
| video_from_index | video_to_index.

(** Checkable controls ([isChecked()], [setChecked]); [gmm_value] and
    [knn_value] are the pair of algorithm selectors. *)
Inductive check :=
| undistort_image_box | use_angle_value | use_centers_value
| swipe_clusters_value | gmm_value | knn_value.

Inductive button :=
| load_video_button | reset_button | play_video_button | stop_video_button
| pause_video_button | detect_webcam_button.

(** The seven output panels. *)
Inductive view :=
| video_view | attention_view | canny_edges_view | segment_image_view
| rectangle_image_view | class_image_view | module_image_view.

Definition spin_eq_dec : forall a b : spin, {a = b} + {a <> b}.
Proof. decide equality. Defined.

Definition check_eq_dec : forall a b : check, {a = b} + {a <> b}.
Proof. decide equality. Defined.

Definition button_eq_dec : forall a b : button, {a = b} + {a <> b}.
Proof. decide equality. Defined.

Definition view_eq_dec : forall a b : view, {a = b} + {a <> b}.
Proof. decide equality. Defined.

(** ** The processing configuration ([thermo_thread.app]) *)

Record PreprocessingParams := {
  image_scaling : float;
  image_rotation : float;
  gaussian_blur : Z;
  red_threshold : Z }.

Record EdgeDetectionParams := {
  hysteresis_max_thresh : Z;
  hysteresis_min_thresh : Z;
  dilation_steps : Z }.

Record SegmentDetectionParams := {
  d_rho : Z;
  d_theta : float;
  min_num_votes : Z;
  min_line_length : Z;
  max_line_gap : Z;
  extension_pixels : Z }.

Record SegmentClusteringParams := {
  num_init : Z;
  swipe_clusters : bool;
  num_clusters : Z;
  use_centers : bool;
  use_angles : bool;
  cluster_type : string }.

Record ClusterCleaningParams := {
  max_angle_variation_mean : float;
  max_merging_angle : float;
  max_endpoint_distance : float }.

Record RectangleDetectionParams := {
  aspect_ratio : Z;
  aspect_ratio_relative_deviation : Z;
  min_area : Z }.

Record ThermoApp := {
  preprocessing_parameters : PreprocessingParams;
  edge_detection_parameters : EdgeDetectionParams;
  segment_detection_parameters : SegmentDetectionParams;
  segment_clustering_parameters : SegmentClusteringParams;
  cluster_cleaning_parameters : ClusterCleaningParams;
  rectangle_detection_parameters : RectangleDetectionParams;
  should_undistort_image : bool;
  frames : list ndarray }.

(** Attribute assignments on the configuration objects. *)

Definition set_image_scaling (x : float) (p : PreprocessingParams) :=
  {| image_scaling := x; image_rotation := image_rotation p;
     gaussian_blur := gaussian_blur p; red_threshold := red_threshold p |}.

Definition set_image_rotation (x : float) (p : PreprocessingParams) :=
  {| image_scaling := image_scaling p; image_rotation := x;
     gaussian_blur := gaussian_blur p; red_threshold := red_threshold p |}.

Definition set_gaussian_blur (x : Z) (p : PreprocessingParams) :=
  {| image_scaling := image_scaling p; image_rotation := image_rotation p;
     gaussian_blur := x; red_threshold := red_threshold p |}.

Definition set_red_threshold (x : Z) (p : PreprocessingParams) :=
  {| image_scaling := image_scaling p; image_rotation := image_rotation p;
     gaussian_blur := gaussian_blur p; red_threshold := x |}.

Definition set_hysteresis_max_thresh (x : Z) (p : EdgeDetectionParams) :=
  {| hysteresis_max_thresh := x;
     hysteresis_min_thresh := hysteresis_min_thresh p;
     dilation_steps := dilation_steps p |}.

Definition set_hysteresis_min_thresh (x : Z) (p : EdgeDetectionParams) :=
  {| hysteresis_max_thresh := hysteresis_max_thresh p;
     hysteresis_min_thresh := x;
     dilation_steps := dilation_steps p |}.

Definition set_dilation_steps (x : Z) (p : EdgeDetectionParams) :=
  {| hysteresis_max_thresh := hysteresis_max_thresh p;
     hysteresis_min_thresh := hysteresis_min_thresh p;
     dilation_steps := x |}.

Definition set_preprocessing_parameters (p : PreprocessingParams) (a : ThermoApp) :=
  {| preprocessing_parameters := p;
     edge_detection_parameters := edge_detection_parameters a;
     segment_detection_parameters := segment_detection_parameters a;
     segment_clustering_parameters := segment_clustering_parameters a;
     cluster_cleaning_parameters := cluster_cleaning_parameters a;
     rectangle_detection_parameters := rectangle_detection_parameters a;
     should_undistort_image := should_undistort_image a;
     frames := frames a |}.

Definition set_edge_detection_parameters (p : EdgeDetectionParams) (a : ThermoApp) :=
  {| preprocessing_parameters := preprocessing_parameters a;
     edge_detection_parameters := p;
     segment_detection_parameters := segment_detection_parameters a;
     segment_clustering_parameters := segment_clustering_parameters a;
     cluster_cleaning_parameters := cluster_cleaning_parameters a;
     rectangle_detection_parameters := rectangle_detection_parameters a;
     should_undistort_image := should_undistort_image a;
     frames := frames a |}.

Definition set_segment_detection_parameters (p : SegmentDetectionParams) (a : ThermoApp) :=
  {| preprocessing_parameters := preprocessing_parameters a;
     edge_detection_parameters := edge_detection_parameters a;
     segment_detection_parameters := p;
     segment_clustering_parameters := segment_clustering_parameters a;
     cluster_cleaning_parameters := cluster_cleaning_parameters a;
     rectangle_detection_parameters := rectangle_detection_parameters a;
     should_undistort_image := should_undistort_image a;
     frames := frames a |}.

Definition set_segment_clustering_parameters (p : SegmentClusteringParams) (a : ThermoApp) :=
  {| preprocessing_parameters := preprocessing_parameters a;
     edge_detection_parameters := edge_detection_parameters a;
     segment_detection_parameters := segment_detection_parameters a;
     segment_clustering_parameters := p;
     cluster_cleaning_parameters := cluster_cleaning_parameters a;
     rectangle_detection_parameters := rectangle_detection_parameters a;
     should_undistort_image := should_undistort_image a;
     frames := frames a |}.

Definition set_cluster_cleaning_parameters (p : ClusterCleaningParams) (a : ThermoApp) :=
  {| preprocessing_parameters := preprocessing_parameters a;
     edge_detection_parameters := edge_detection_parameters a;
     segment_detection_parameters := segment_detection_parameters a;
     segment_clustering_parameters := segment_clustering_parameters a;
     cluster_cleaning_parameters := p;
     rectangle_detection_parameters := rectangle_detection_parameters a;
     should_undistort_image := should_undistort_image a;
     frames := frames a |}.

Definition set_rectangle_detection_parameters (p : RectangleDetectionParams) (a : ThermoApp) :=
  {| preprocessing_parameters := preprocessing_parameters a;
     edge_detection_parameters := edge_detection_parameters a;
     segment_detection_parameters := segment_detection_parameters a;
     segment_clustering_parameters := segment_clustering_parameters a;
     cluster_cleaning_parameters := cluster_cleaning_parameters a;
     rectangle_detection_parameters := p;
     should_undistort_image := should_undistort_image a;
     frames := frames a |}.

Definition set_should_undistort_image (b : bool) (a : ThermoApp) :=
  {| preprocessing_parameters := preprocessing_parameters a;
     edge_detection_parameters := edge_detection_parameters a;
     segment_detection_parameters := segment_detection_parameters a;
     segment_clustering_parameters := segment_clustering_parameters a;
     cluster_cleaning_parameters := cluster_cleaning_parameters a;
     rectangle_detection_parameters := rectangle_detection_parameters a;
     should_undistort_image := b;
     frames := frames a |}.

Definition set_frames (fs : list ndarray) (a : ThermoApp) :=
  {| preprocessing_parameters := preprocessing_parameters a;
     edge_detection_parameters := edge_detection_parameters a;
     segment_detection_parameters := segment_detection_parameters a;
     segment_clustering_parameters := segment_clustering_parameters a;
     cluster_cleaning_parameters := cluster_cleaning_parameters a;
     rectangle_detection_parameters := rectangle_detection_parameters a;
     should_undistort_image := should_undistort_image a;
     frames := fs |}.

Definition set_cluster_type (x : string) (p : SegmentClusteringParams) :=
  {| num_init := num_init p; swipe_clusters := swipe_clusters p;
     num_clusters := num_clusters p; use_centers := use_centers p;
     use_angles := use_angles p; cluster_type := x |}.

(** ** The worker thread *)

(** The signals of the worker that the window subscribes to. *)
Inductive thread_signal :=
| last_frame_signal | attention_frame_signal | edge_frame_signal
| segment_frame_signal | rectangle_frame_signal | classes_frame_signal
| module_map_frame_signal | finish_signal | iteration_signal.

(** The methods of the window that are connected to worker signals. *)
Inductive slot :=
| slot_display_image | slot_display_attention | slot_display_canny_edges
| slot_display_segment_image | slot_display_rectangle_image
| slot_display_classes_image | slot_display_module_map_image
| slot_video_finished | slot_update_global_progress_bar.

Definition thread_signal_eq_dec : forall a b : thread_signal, {a = b} + {a <> b}.
Proof. decide equality. Defined.

Inductive QThreadStatus := NotStarted | Started | Terminated.

(** Modelled from the spec: the class [ThermoGuiThread] of [gui.threads] is
    not part of the sources.  The worker owns the processing configuration
    ([app]), a source (a file name, or a device index bound by [use_webcam]),
    a pause flag polled between frames, and its signals; each signal keeps the
    list of connected slots, in connection order, duplicates included. *)
Record ThermoGuiThread := {
  input_file_name : option string;
  webcam : option Z;
  is_paused : bool;
  status : QThreadStatus;
  app : ThermoApp;
  connected : thread_signal -> list slot }.

(** Modelled from the spec: a fresh worker is idle (not started, not paused),
    has no source and no subscriber, and holds the engine's default
    configuration. *)
Definition ThermoGuiThread_new (default_app : ThermoApp) : ThermoGuiThread :=
  {| input_file_name := None; webcam := None; is_paused := false;
     status := NotStarted; app := default_app; connected := fun _ => [] |}.

Definition set_input_file_name (x : option string) (t : ThermoGuiThread) :=
  {| input_file_name := x; webcam := webcam t; is_paused := is_paused t;
     status := status t; app := app t; connected := connected t |}.

Definition set_webcam (x : option Z) (t : ThermoGuiThread) :=
  {| input_file_name := input_file_name t; webcam := x; is_paused := is_paused t;
     status := status t; app := app t; connected := connected t |}.

Definition set_is_paused (b : bool) (t : ThermoGuiThread) :=
  {| input_file_name := input_file_name t; webcam := webcam t; is_paused := b;
     status := status t; app := app t; connected := connected t |}.

Definition set_status (x : QThreadStatus) (t : ThermoGuiThread) :=
  {| input_file_name := input_file_name t; webcam := webcam t;
     is_paused := is_paused t; status := x; app := app t;
     connected := connected t |}.

Definition set_app (a : ThermoApp) (t : ThermoGuiThread) :=
  {| input_file_name := input_file_name t; webcam := webcam t;
     is_paused := is_paused t; status := status t; app := a;
     connected := connected t |}.

Definition set_connected (c : thread_signal -> list slot) (t : ThermoGuiThread) :=
  {| input_file_name := input_file_name t; webcam := webcam t;
     is_paused := is_paused t; status := status t; app := app t;
     connected := c |}.

(** [signal.connect(slot)]: one more connection, after the existing ones. *)
Definition connect (sig : thread_signal) (sl : slot) (t : ThermoGuiThread) :=
  set_connected (upd thread_signal_eq_dec (connected t) sig (connected t sig ++ [sl])%list) t.

(** Modelled from the spec: [start()] makes the worker run. *)
Definition start (t : ThermoGuiThread) := set_status Started t.

(** Modelled from the spec: [terminate()] is a hard cancellation of a running
    worker; a worker that is not running is left as it is. *)
Definition terminate (t : ThermoGuiThread) :=
  match status t with
  | Started => set_status Terminated t
  | _ => t
  end.

(** Modelled from the spec: [use_webcam(port)] binds a live source. *)
Definition use_webcam (port : Z) (t : ThermoGuiThread) := set_webcam (Some port) t.

(** The run lifecycle states of the spec, read off the worker. *)
Inductive RunState := Idle | Running | Paused | Finished.

Definition lifecycle (t : ThermoGuiThread) : RunState :=
  match status t with
  | NotStarted => Idle
  | Started => if is_paused t then Paused else Running
  | Terminated => Finished
  end.

(** ** The window state *)

Inductive WebcamDialog := WebcamDialog_started.

Record Ui_ThermoGUI_main_window := {
  value : spin -> Z;
  spin_enabled : spin -> bool;
  isChecked : check -> bool;
  check_enabled : check -> bool;
  button_enabled : button -> bool;
  image_scaling_label : text;
  global_progress_bar : QProgressBar;
  panel : view -> QLabel }.

Record ThermoGUI := {
  ui : Ui_ThermoGUI_main_window;
  thermo_thread : ThermoGuiThread;
  is_stoppable : bool;
  last_folder_opened : option string;
  capture : option WebcamDialog;
  webcam_port : option Z;
  windowTitle : string }.

Definition set_ui (u : Ui_ThermoGUI_main_window) (s : ThermoGUI) :=
  {| ui := u; thermo_thread := thermo_thread s; is_stoppable := is_stoppable s;
     last_folder_opened := last_folder_opened s; capture := capture s;
     webcam_port := webcam_port s; windowTitle := windowTitle s |}.

Definition set_thermo_thread (t : ThermoGuiThread) (s : ThermoGUI) :=
  {| ui := ui s; thermo_thread := t; is_stoppable := is_stoppable s;
     last_folder_opened := last_folder_opened s; capture := capture s;
     webcam_port := webcam_port s; windowTitle := windowTitle s |}.

Definition set_is_stoppable (b : bool) (s : ThermoGUI) :=
  {| ui := ui s; thermo_thread := thermo_thread s; is_stoppable := b;
     last_folder_opened := last_folder_opened s; capture := capture s;
     webcam_port := webcam_port s; windowTitle := windowTitle s |}.

Definition set_last_folder_opened (x : option string) (s : ThermoGUI) :=
  {| ui := ui s; thermo_thread := thermo_thread s; is_stoppable := is_stoppable s;
     last_folder_opened := x; capture := capture s;
     webcam_port := webcam_port s; windowTitle := windowTitle s |}.

Definition set_capture (x : option WebcamDialog) (s : ThermoGUI) :=
  {| ui := ui s; thermo_thread := thermo_thread s; is_stoppable := is_stoppable s;
     last_folder_opened := last_folder_opened s; capture := x;
     webcam_port := webcam_port s; windowTitle := windowTitle s |}.

Definition set_webcam_port (x : option Z) (s : ThermoGUI) :=
  {| ui := ui s; thermo_thread := thermo_thread s; is_stoppable := is_stoppable s;
     last_folder_opened := last_folder_opened s; capture := capture s;
     webcam_port := x; windowTitle := windowTitle s |}.

Definition setWindowTitle (x : string) (s : ThermoGUI) :=
  {| ui := ui s; thermo_thread := thermo_thread s; is_stoppable := is_stoppable s;
     last_folder_opened := last_folder_opened s; capture := capture s;
     webcam_port := webcam_port s; windowTitle := x |}.

(** Writes to single widgets. *)

Definition set_value (w : spin) (v : Z) (s : ThermoGUI) :=
  let u := ui s in
  set_ui {| value := upd spin_eq_dec (value u) w v; spin_enabled := spin_enabled u;
            isChecked := isChecked u; check_enabled := check_enabled u;
            button_enabled := button_enabled u;
            image_scaling_label := image_scaling_label u;
            global_progress_bar := global_progress_bar u; panel := panel u |} s.

Definition setEnabled_spin (w : spin) (b : bool) (s : ThermoGUI) :=
  let u := ui s in
  set_ui {| value := value u; spin_enabled := upd spin_eq_dec (spin_enabled u) w b;
            isChecked := isChecked u; check_enabled := check_enabled u;
            button_enabled := button_enabled u;
            image_scaling_label := image_scaling_label u;
            global_progress_bar := global_progress_bar u; panel := panel u |} s.

Definition set_checked (c : check) (b : bool) (s : ThermoGUI) :=
  let u := ui s in
  set_ui {| value := value u; spin_enabled := spin_enabled u;
            isChecked := upd check_eq_dec (isChecked u) c b;
            check_enabled := check_enabled u;
            button_enabled := button_enabled u;
            image_scaling_label := image_scaling_label u;
            global_progress_bar := global_progress_bar u; panel := panel u |} s.

Definition setEnabled_check (c : check) (b : bool) (s : ThermoGUI) :=
  let u := ui s in
  set_ui {| value := value u; spin_enabled := spin_enabled u;
            isChecked := isChecked u;
            check_enabled := upd check_eq_dec (check_enabled u) c b;
            button_enabled := button_enabled u;
            image_scaling_label := image_scaling_label u;
            global_progress_bar := global_progress_bar u; panel := panel u |} s.

Definition setEnabled_button (k : button) (b : bool) (s : ThermoGUI) :=
  let u := ui s in
  set_ui {| value := value u; spin_enabled := spin_enabled u;
            isChecked := isChecked u; check_enabled := check_enabled u;
            button_enabled := upd button_eq_dec (button_enabled u) k b;
            image_scaling_label := image_scaling_label u;
            global_progress_bar := global_progress_bar u; panel := panel u |} s.

Definition set_image_scaling_label (t : text) (s : ThermoGUI) :=
  let u := ui s in
  set_ui {| value := value u; spin_enabled := spin_enabled u;
            isChecked := isChecked u; check_enabled := check_enabled u;
            button_enabled := button_enabled u;
            image_scaling_label := t;
            global_progress_bar := global_progress_bar u; panel := panel u |} s.

Definition set_global_progress_bar (p : QProgressBar) (s : ThermoGUI) :=
  let u := ui s in
  set_ui {| value := value u; spin_enabled := spin_enabled u;
            isChecked := isChecked u; check_enabled := check_enabled u;
            button_enabled := button_enabled u;
            image_scaling_label := image_scaling_label u;
            global_progress_bar := p; panel := panel u |} s.

Definition set_panel (vw : view) (l : QLabel) (s : ThermoGUI) :=
  let u := ui s in
  set_ui {| value := value u; spin_enabled := spin_enabled u;
            isChecked := isChecked u; check_enabled := check_enabled u;
            button_enabled := button_enabled u;
            image_scaling_label := image_scaling_label u;
            global_progress_bar := global_progress_bar u;
            panel := upd view_eq_dec (panel u) vw l |} s.

(** [global_progress_bar.setMinimum], [.setMaximum], [.setValue]. *)
Definition setMinimum (x : Z) (s : ThermoGUI) :=
  let p := global_progress_bar (ui s) in
  set_global_progress_bar
    {| minimum := x; maximum := maximum p; progress := progress p |} s.

Definition setMaximum (x : Z) (s : ThermoGUI) :=
  let p := global_progress_bar (ui s) in
  set_global_progress_bar
    {| minimum := minimum p; maximum := x; progress := progress p |} s.

Definition setProgress (x : Z) (s : ThermoGUI) :=
  let p := global_progress_bar (ui s) in
  set_global_progress_bar
    {| minimum := minimum p; maximum := maximum p; progress := x |} s.

(** [view.setText], [view.setPixmap], [view.setFixedSize], [view.setAlignment]. *)
Definition setText (vw : view) (t : string) (s : ThermoGUI) :=
  let l := panel (ui s) vw in
  set_panel vw {| shown := Text t; size := size l; alignment := alignment l |} s.

Definition setPixmap (vw : view) (img : QImage) (s : ThermoGUI) :=
  let l := panel (ui s) vw in
  set_panel vw {| shown := Pixmap img; size := size l; alignment := alignment l |} s.

Definition setFixedSize (vw : view) (w h : Z) (s : ThermoGUI) :=
  let l := panel (ui s) vw in
  set_panel vw {| shown := shown l; size := {| width := w; height := h |};
                  alignment := alignment l |} s.

Definition setAlignment (vw : view) (a : Alignment) (s : ThermoGUI) :=
  let l := panel (ui s) vw in
  set_panel vw {| shown := shown l; size := size l; alignment := a |} s.

(** Access paths of the code: [self.<widget>.value()] and the like. *)
Definition value_of (s : ThermoGUI) (w : spin) : Z := value (ui s) w.
Definition isChecked_of (s : ThermoGUI) (c : check) : bool := isChecked (ui s) c.
Definition the_app (s : ThermoGUI) : ThermoApp := app (thermo_thread s).

(** An assignment below [self.thermo_thread.app]. *)
Definition write_app (f : ThermoApp -> ThermoApp) (s : ThermoGUI) :=
  set_thermo_thread (set_app (f (the_app s)) (thermo_thread s)) s.

Definition write_preprocessing (f : PreprocessingParams -> PreprocessingParams) :=
  write_app (fun a => set_preprocessing_parameters (f (preprocessing_parameters a)) a).

Definition write_edge_detection (f : EdgeDetectionParams -> EdgeDetectionParams) :=
  write_app (fun a => set_edge_detection_parameters (f (edge_detection_parameters a)) a).

Definition write_segment_clustering
  (f : SegmentClusteringParams -> SegmentClusteringParams) :=
  write_app (fun a =>
    set_segment_clustering_parameters (f (segment_clustering_parameters a)) a).

(** ** Widget signals and [__connect_widgets] *)

Inductive signal :=
| valueChanged (w : spin)
| stateChanged (c : check)
| clicked (c : check).

(** The slots that widget signals are connected to: the operations of the
    parameter synchronizer. *)
Inductive method :=
| m_update_image_scaling
| m_update_image_distortion
| m_update_preprocessing_params
| m_update_histeresis_params
| m_update_dilation_steps
| m_update_edge_params
| m_update_clustering_params
| m_update_cluster_cleaning_params
| m_update_rectangle_detection_params.

(** [__connect_widgets], for the value, state and selector signals: the slots
    of each signal in connection order.  (The push buttons are wired in
    [on_clicked] below.) *)
Definition connections (sig : signal) : list method :=
  match sig with
  | valueChanged image_scaling_slider =>
      [m_update_image_scaling; m_update_preprocessing_params]
  | stateChanged undistort_image_box => [m_update_image_distortion]
  | valueChanged angle_value
  | valueChanged blur_value
  | valueChanged temperature_value => [m_update_preprocessing_params]
  | valueChanged max_histeresis_value
  | valueChanged min_histeresis_value => [m_update_histeresis_params]
  | valueChanged dilation_value => [m_update_dilation_steps]
  | valueChanged delta_rho_value
  | valueChanged delta_theta_value
  | valueChanged min_votes_value
  | valueChanged min_length_value
  | valueChanged max_gap_value
  | valueChanged extend_segments_value => [m_update_edge_params]
  | clicked gmm_value
  | clicked knn_value
  | valueChanged num_clusters_value
  | valueChanged num_init_value
  | stateChanged use_angle_value
  | stateChanged use_centers_value
  | stateChanged swipe_clusters_value => [m_update_clustering_params]
  | valueChanged max_angle_variation_mean_value
  | valueChanged max_merging_angle_value
  | valueChanged max_merging_distance_value => [m_update_cluster_cleaning_params]
  | valueChanged expected_ratio_value
  | valueChanged ratio_max_deviation_value
  | valueChanged min_area_value => [m_update_rectangle_detection_params]
  | _ => []
  end.

(** ** The parameter synchronizer *)

(** [self.thermo_thread] always holds a worker object, so the test
    [is not None] of the source is always passed. *)
Definition __update_image_scaling (s : ThermoGUI) : ThermoGUI :=
  let image_scaling := (float_of_int (value_of s image_scaling_slider) * one_tenth)%float in
  let s := write_preprocessing (set_image_scaling image_scaling) s in
  set_image_scaling_label (Format_2f "Input image scaling: " image_scaling) s.

Definition __update_blur_value (s : ThermoGUI) : ThermoGUI :=
  write_preprocessing (set_gaussian_blur (value_of s blur_value)) s.

Definition __update_temperature_value (s : ThermoGUI) : ThermoGUI :=
  write_preprocessing (set_red_threshold (value_of s temperature_value)) s.

Definition __update_dilation_steps (s : ThermoGUI) : ThermoGUI :=
  write_edge_detection (set_dilation_steps (value_of s dilation_value)) s.

Definition __update_image_distortion (s : ThermoGUI) : ThermoGUI :=
  write_app (set_should_undistort_image (isChecked_of s undistort_image_box)) s.

Definition __update_edge_params (s : ThermoGUI) : ThermoGUI :=
  write_app (set_segment_detection_parameters
    {| d_rho := value_of s delta_rho_value;
       d_theta := (np_pi / 180 * float_of_int (value_of s delta_theta_value))%float;
       min_num_votes := value_of s min_votes_value;
       min_line_length := value_of s min_length_value;
       max_line_gap := value_of s max_gap_value;
       extension_pixels := value_of s extend_segments_value |}) s.

Definition __update_clustering_params (s : ThermoGUI) : ThermoGUI :=
  let s := write_segment_clustering (fun p =>
    {| num_init := value_of s num_init_value;
       swipe_clusters := isChecked_of s swipe_clusters_value;
       num_clusters := value_of s num_clusters_value;
       use_centers := isChecked_of s use_centers_value;
       use_angles := isChecked_of s use_angle_value;
       cluster_type := cluster_type p |}) s in
  if isChecked_of s knn_value then
    let s := write_segment_clustering (set_cluster_type "knn") s in
    let s := setEnabled_check swipe_clusters_value false s in
    setEnabled_spin num_init_value true s
  else if isChecked_of s gmm_value then
    let s := write_segment_clustering (set_cluster_type "gmm") s in
    let s := setEnabled_check swipe_clusters_value true s in
    setEnabled_spin num_init_value false s
  else s.

Definition __update_cluster_cleaning_params (s : ThermoGUI) : ThermoGUI :=
  write_app (set_cluster_cleaning_parameters
    {| max_angle_variation_mean :=
         (np_pi / 180 * float_of_int (value_of s max_angle_variation_mean_value))%float;
       max_merging_angle :=
         (np_pi / 180 * float_of_int (value_of s max_merging_angle_value))%float;
       max_endpoint_distance :=
         (np_pi / 180 * float_of_int (value_of s max_merging_distance_value))%float |}) s.

Definition __update_rectangle_detection_params (s : ThermoGUI) : ThermoGUI :=
  write_app (set_rectangle_detection_parameters
    {| aspect_ratio := value_of s expected_ratio_value;
       aspect_ratio_relative_deviation := value_of s ratio_max_deviation_value;
       min_area := value_of s min_area_value |}) s.

(** Methods that call [setValue] or [setChecked] take the dispatcher of the
    signal this may emit. *)
Section Emitting.

Variable emit : signal -> ThermoGUI -> option ThermoGUI.

(** [widget.setValue(v)]: a change of value emits [valueChanged]. *)
Definition setValue (w : spin) (v : Z) (s : ThermoGUI) : option ThermoGUI :=
  if value_of s w =? v then Some s
  else emit (valueChanged w) (set_value w v s).

(** [box.setChecked(b)]: a change of state emits [stateChanged]. *)
Definition setChecked (c : check) (b : bool) (s : ThermoGUI) : option ThermoGUI :=
  if Bool.eqb (isChecked_of s c) b then Some s
  else emit (stateChanged c) (set_checked c b s).

Definition __update_image_angle (s : ThermoGUI) : option ThermoGUI :=
  let s' := write_preprocessing (set_image_rotation
              (float_of_int (value_of s angle_value) * np_pi / 180)%float) s in
  if value_of s' angle_value =? 360 then setValue angle_value 0 s'
  else Some s'.

Definition __update_preprocessing_params (s : ThermoGUI) : option ThermoGUI :=
  let s := __update_image_scaling s in
  s <- __update_image_angle s ;;
  let s := __update_blur_value s in
  Some (__update_temperature_value s).

Definition __update_histeresis_params (s : ThermoGUI) : option ThermoGUI :=
  let min_value := value_of s min_histeresis_value in
  let max_value := value_of s max_histeresis_value in
  let max_value := if max_value <=? min_value then min_value + 1 else max_value in
  s <- setValue max_histeresis_value max_value s ;;
  let s := write_edge_detection (set_hysteresis_max_thresh max_value) s in
  Some (write_edge_detection (set_hysteresis_min_thresh min_value) s).

(** A call of a connected slot. *)
Definition invoke (m : method) (s : ThermoGUI) : option ThermoGUI :=
  match m with
  | m_update_image_scaling => Some (__update_image_scaling s)
  | m_update_image_distortion => Some (__update_image_distortion s)
  | m_update_preprocessing_params => __update_preprocessing_params s
  | m_update_histeresis_params => __update_histeresis_params s
  | m_update_dilation_steps => Some (__update_dilation_steps s)
  | m_update_edge_params => Some (__update_edge_params s)
  | m_update_clustering_params => Some (__update_clustering_params s)
  | m_update_cluster_cleaning_params => Some (__update_cluster_cleaning_params s)
  | m_update_rectangle_detection_params =>
      Some (__update_rectangle_detection_params s)
  end.

(** The slots of a signal run one after the other, each on the state the
    previous one left. *)
Definition run_slots (ms : list method) (s : ThermoGUI) : option ThermoGUI :=
  fold_left (fun acc m => s' <- acc ;; invoke m s') ms (Some s).

End Emitting.

(** Emission of a widget signal.  A slot may itself change a control and so
    emit again; [fuel] bounds the nesting, [None] means it ran out. *)
Fixpoint emit (fuel : nat) (sig : signal) (s : ThermoGUI) : option ThermoGUI :=
  match fuel with
  | O => None
  | S fuel' => run_slots (emit fuel') (connections sig) s
  end.

(** A slot called from the event loop with nesting bound [fuel]. *)
Definition call (fuel : nat) (m : method) (s : ThermoGUI) : option ThermoGUI :=
  invoke (emit fuel) m s.

(** ** The frame pipeline controller *)

Definition __update_global_progress_bar (frame_index : Z) (s : ThermoGUI) : ThermoGUI :=
  setProgress frame_index s.

Definition __video_finished (finished : bool) (s : ThermoGUI) : ThermoGUI :=
  let s := setEnabled_button play_video_button finished s in
  let s := setEnabled_button pause_video_button (negb finished) s in
  let s := setEnabled_button stop_video_button (negb finished) s in
  setEnabled_spin image_scaling_slider finished s.

(** [self.thermo_thread.<attribute> = ...] and calls of worker methods. *)
Definition on_thread (f : ThermoGuiThread -> ThermoGuiThread) (s : ThermoGUI) :=
  set_thermo_thread (f (thermo_thread s)) s.

Definition __play_all_frames (s : ThermoGUI) : ThermoGUI :=
  let s := on_thread (set_is_paused false) s in
  let s := setEnabled_spin image_scaling_slider false s in
  let s := __update_image_scaling s in
  let s := set_image_scaling_label
             (Format_2f "Input image scaling: "
                (image_scaling (preprocessing_parameters (the_app s)))) s in
  let s := setEnabled_button play_video_button false s in
  let s := setEnabled_button pause_video_button true s in
  let s := if is_stoppable s then setEnabled_button stop_video_button true s else s in
  on_thread start s.

Definition __stop_all_frames (s : ThermoGUI) : ThermoGUI :=
  let s := on_thread terminate s in
  __video_finished true s.

Definition __pause_all_frames (s : ThermoGUI) : ThermoGUI :=
  let s := on_thread (set_is_paused true) s in
  let s := setEnabled_button play_video_button true s in
  let s := if is_stoppable s then setEnabled_button stop_video_button true s else s in
  setEnabled_button pause_video_button false s.

Definition __set_webcam_port (port : Z) (s : ThermoGUI) : ThermoGUI :=
  let s := set_webcam_port (Some port) s in
  let s := on_thread (use_webcam port) s in
  let s := set_is_stoppable false s in
  let s := setWindowTitle "Thermography: Webcam" s in
  __play_all_frames s.

(** [__connect_thermo_thread]: one subscription per frame kind, and one to
    the completion signal. *)
Definition __connect_thermo_thread (s : ThermoGUI) : ThermoGUI :=
  let s := on_thread (connect last_frame_signal slot_display_image) s in
  let s := on_thread (connect attention_frame_signal slot_display_attention) s in
  let s := on_thread (connect edge_frame_signal slot_display_canny_edges) s in
  let s := on_thread (connect segment_frame_signal slot_display_segment_image) s in
  let s := on_thread (connect rectangle_frame_signal slot_display_rectangle_image) s in
  let s := on_thread (connect classes_frame_signal slot_display_classes_image) s in
  let s := on_thread (connect module_map_frame_signal slot_display_module_map_image) s in
  on_thread (connect finish_signal slot_video_finished) s.

(** What the window takes from outside the sources: the configuration a new
    [ThermoGuiThread] starts with, the frames the engine reads for a file and
    a frame range, and [os.path.dirname]. *)
Record External := {
  default_app : ThermoApp;
  video_frames : option string -> Z -> option Z -> list ndarray;
  os_path_dirname : string -> string }.

(** Modelled from the spec: [load_video(start_frame, end_frame)] of the worker
    binds the frame range of the file source; afterwards [app.frames] holds
    the frames to process. *)
Definition load_video (E : External) (start_frame : Z) (end_frame : option Z)
  (t : ThermoGuiThread) : ThermoGuiThread :=
  set_app (set_frames (video_frames E (input_file_name t) start_frame end_frame) (app t)) t.

(** [__load_video_from_file]; [video_file_name] is what the file dialog
    returned (empty when cancelled). *)
Definition __load_video_from_file (E : External) (video_file_name : string)
  (s : ThermoGUI) : ThermoGUI :=
  if String.eqb video_file_name "" then s
  else
    let s := set_last_folder_opened (Some (os_path_dirname E video_file_name)) s in
    let s := on_thread (set_input_file_name (Some video_file_name)) s in
    let s := set_is_stoppable true s in
    let s := setWindowTitle ("Thermography: " ++ video_file_name) s in
    let start_frame := value_of s video_from_index in
    let end_frame := value_of s video_to_index in
    let end_frame := if end_frame =? -1 then None else Some end_frame in
    let s := on_thread (load_video E start_frame end_frame) s in
    let s := setMinimum 0 s in
    let s := setMaximum (Z.of_nat (List.length (frames (the_app s))) - 1) s in
    on_thread (connect iteration_signal slot_update_global_progress_bar) s.

Section Controller.

Variable E : External.
Variable emit : signal -> ThermoGUI -> option ThermoGUI.

Definition __load_webcam (s : ThermoGUI) : option ThermoGUI :=
  let s := set_capture (Some WebcamDialog_started) s in
  s <- setChecked emit undistort_image_box true s ;;
  setChecked emit undistort_image_box false s.

Definition __reset_app (s : ThermoGUI) : option ThermoGUI :=
  let s := on_thread terminate s in
  let s := set_thermo_thread (ThermoGuiThread_new (default_app E)) s in
  s <- setValue emit image_scaling_slider 10 s ;;
  let s := __video_finished true s in
  let s := setProgress 0 s in
  let s := setText video_view "Input Image" s in
  let s := setText canny_edges_view "Edges Image" s in
  let s := setText segment_image_view "Segment Image" s in
  let s := setText rectangle_image_view "Rectangle Image" s in
  let s := setText module_image_view "Module Map" s in
  let s := setAlignment module_image_view AlignCenter s in
  let s := set_capture None s in
  let s := set_webcam_port None s in
  let s := setWindowTitle "Thermography" s in
  Some (__connect_thermo_thread s).

End Controller.

(** [__init__]: [design] is the window that [setupUi] builds and [title] its
    title; the widget connections of [__connect_widgets] are [connections]
    and [on_clicked]. *)
Definition __init__ (E : External) (design : Ui_ThermoGUI_main_window)
  (title : string) : ThermoGUI :=
  __connect_thermo_thread
    {| ui := design;
       thermo_thread := ThermoGuiThread_new (default_app E);
       is_stoppable := true;
       last_folder_opened := None;
       capture := None;
       webcam_port := None;
       windowTitle := title |}.

(** ** Display of frame events *)

(** The body shared by the scaled panels: convert, wrap, scale to the size of
    [video_view], paint on [vw]. *)
Definition display_scaled (code : ColorConversionCode) (vw : view)
  (frame : ndarray) (s : ThermoGUI) : option ThermoGUI :=
  frame <- cvtColor frame code ;;
  let image := QImage_of_frame frame in
  let image := ScaledKeepAspectRatio (size (panel (ui s) video_view)) image in
  Some (setPixmap vw image s).

Definition __display_image := display_scaled COLOR_BGR2RGB video_view.
Definition __display_attention := display_scaled COLOR_BGR2RGB attention_view.
Definition __display_canny_edges := display_scaled COLOR_GRAY2RGB canny_edges_view.
Definition __display_segment_image := display_scaled COLOR_BGR2RGB segment_image_view.
Definition __display_rectangle_image := display_scaled COLOR_BGR2RGB rectangle_image_view.
Definition __display_module_map_image := display_scaled COLOR_BGR2RGB module_image_view.

Definition __resize_video_view (sz : Z * Z) (vw : view) (s : ThermoGUI) : ThermoGUI :=
  setFixedSize vw (snd sz) (fst sz) s.

Definition __display_classes_image (frame : ndarray) (s : ThermoGUI) : option ThermoGUI :=
  frame <- cvtColor frame COLOR_BGR2RGB ;;
  let s := __resize_video_view (shape frame) class_image_view s in
  let image := QImage_of_frame frame in
  Some (setPixmap class_image_view image s).

(** ** Events *)

(** What a worker signal carries. *)
Inductive payload :=
| Frame (f : ndarray)
| Flag (b : bool)
| Index (i : Z).

(** A slot of [__connect_thermo_thread] (or the progress slot of
    [__load_video_from_file]) called with the payload of its signal; a payload
    of the wrong type raises. *)
Definition run_slot (sl : slot) (p : payload) (s : ThermoGUI) : option ThermoGUI :=
  match sl, p with
  | slot_display_image, Frame f => __display_image f s
  | slot_display_attention, Frame f => __display_attention f s
  | slot_display_canny_edges, Frame f => __display_canny_edges f s
  | slot_display_segment_image, Frame f => __display_segment_image f s
  | slot_display_rectangle_image, Frame f => __display_rectangle_image f s
  | slot_display_classes_image, Frame f => __display_classes_image f s
  | slot_display_module_map_image, Frame f => __display_module_map_image f s
  | slot_video_finished, Flag b => Some (__video_finished b s)
  | slot_update_global_progress_bar, Index i => Some (__update_global_progress_bar i s)
  | _, _ => None
  end.

(** Delivery of a worker signal on the window's thread: every connection of
    the signal is served, in connection order. *)
Definition deliver (sig : thread_signal) (p : payload) (s : ThermoGUI) : option ThermoGUI :=
  fold_left (fun acc sl => s' <- acc ;; run_slot sl p s')
    (connected (thermo_thread s) sig) (Some s).

(** [deliver] with the list of the calls it makes: next to the window that
    the delivery leaves, the slots that were called, in call order. *)
Definition deliver_logged (sig : thread_signal) (p : payload) (s : ThermoGUI)
  : option (ThermoGUI * list slot) :=
  fold_left (fun acc sl =>
               x <- acc ;;
               s' <- run_slot sl p (fst x) ;;
               Some (s', (snd x ++ [sl])%list))
    (connected (thermo_thread s) sig) (Some (s, [])).

(** [__connect_widgets], for the push buttons; [video_file_name] is the
    answer of the file dialog that the load button opens. *)
Definition on_clicked (E : External) (emit : signal -> ThermoGUI -> option ThermoGUI)
  (b : button) (video_file_name : string) (s : ThermoGUI) : option ThermoGUI :=
  match b with
  | load_video_button => Some (__load_video_from_file E video_file_name s)
  | reset_button => __reset_app E emit s
  | play_video_button => Some (__play_all_frames s)
  | stop_video_button => Some (__stop_all_frames s)
  | pause_video_button => Some (__pause_all_frames s)
  | detect_webcam_button => __load_webcam emit s
  end.

Definition is_selector (c : check) : bool :=
  match c with
  | gmm_value | knn_value => true
  | _ => false
  end.

(** Modelled from the spec: the selectors [knn], [gmm] are a mutually
    exclusive pair; choosing one checks it and unchecks the other. *)
Definition select (c : check) (s : ThermoGUI) : ThermoGUI :=
  match c with
  | gmm_value => set_checked gmm_value true (set_checked knn_value false s)
  | knn_value => set_checked knn_value true (set_checked gmm_value false s)
  | _ => s
  end.

Inductive event :=
| UserSetsValue (w : spin) (v : Z)
| UserToggles (c : check)
| UserClicks (b : button) (video_file_name : string)
| WebcamPortSignal (port : Z)
| WorkerSignal (sig : thread_signal) (p : payload).

(** One turn of the event loop.  A disabled control takes no user input. *)
Definition step (E : External) (fuel : nat) (ev : event) (s : ThermoGUI)
  : option ThermoGUI :=
  match ev with
  | UserSetsValue w v =>
      if spin_enabled (ui s) w then setValue (emit fuel) w v s else Some s
  | UserToggles c =>
      if check_enabled (ui s) c then
        if is_selector c then emit fuel (clicked c) (select c s)
        else emit fuel (stateChanged c) (set_checked c (negb (isChecked_of s c)) s)
      else Some s
  | UserClicks b video_file_name =>
      if button_enabled (ui s) b then on_clicked E (emit fuel) b video_file_name s
      else Some s
  | WebcamPortSignal port => Some (__set_webcam_port port s)
  | WorkerSignal sig p => deliver sig p s
  end.

(** A run of the event loop over a list of events. *)
Fixpoint steps (E : External) (fuel : nat) (evs : list event) (s : ThermoGUI)
  : option ThermoGUI :=
  match evs with
  | [] => Some s
  | ev :: evs' => s' <- step E fuel ev s ;; steps E fuel evs' s'
  end.

(** The selectors are never both checked. *)
Definition selectors_exclusive (s : ThermoGUI) : Prop :=
  isChecked_of s knn_value && isChecked_of s gmm_value = false.

(** ** A concrete window, for examples *)

Definition example_app : ThermoApp :=
  {| preprocessing_parameters :=
       {| image_scaling := 1%float; image_rotation := 0%float;
          gaussian_blur := 3; red_threshold := 200 |};
     edge_detection_parameters :=
       {| hysteresis_max_thresh := 140; hysteresis_min_thresh := 70;
          dilation_steps := 3 |};
     segment_detection_parameters :=
       {| d_rho := 1; d_theta := 0%float; min_num_votes := 60;
          min_line_length := 50; max_line_gap := 150; extension_pixels := 10 |};
     segment_clustering_parameters :=
       {| num_init := 10; swipe_clusters := false; num_clusters := 2;
          use_centers := false; use_angles := true; cluster_type := "gmm" |};
     cluster_cleaning_parameters :=
       {| max_angle_variation_mean := 0%float; max_merging_angle := 0%float;
          max_endpoint_distance := 10%float |};
     rectangle_detection_parameters :=
       {| aspect_ratio := 2; aspect_ratio_relative_deviation := 0; min_area := 800 |};
     should_undistort_image := false;
     frames := [] |}.

Definition example_frame : ndarray := Color 1 2 [(1, 2, 3); (4, 5, 6)].

Definition example_external : External :=
  {| default_app := example_app;
     video_frames := fun _ _ _ => [example_frame; example_frame; example_frame];
     os_path_dirname := fun p => p |}.

Definition example_ui : Ui_ThermoGUI_main_window :=
  {| value := fun w =>
       match w with
       | image_scaling_slider => 10
       | max_histeresis_value => 140
       | min_histeresis_value => 70
       | video_to_index => -1
       | max_merging_distance_value => 10
       | _ => 0
       end;
     spin_enabled := fun _ => true;
     isChecked := fun c => match c with gmm_value => true | _ => false end;
     check_enabled := fun _ => true;
     button_enabled := fun b =>
       match b with
       | stop_video_button | pause_video_button => false
       | _ => true
       end;
     image_scaling_label := Caption "Input image scaling: 1.00";
     global_progress_bar := {| minimum := 0; maximum := 100; progress := 0 |};
     panel := fun vw =>
       {| shown := Text "";
          size := match vw with
                  | video_view => {| width := 640; height := 480 |}
                  | _ => {| width := 300; height := 200 |}
                  end;
          alignment := AlignCenter |} |}.

Definition example_window : ThermoGUI :=
  __init__ example_external example_ui "Thermography".

(** A window in which a webcam run is active: the webcam picker reported
    device 0 to [example_window]. *)
Definition webcam_window : ThermoGUI := __set_webcam_port 0 example_window.

(** A session in which a webcam run follows a file run: a video is loaded
    and started, then the webcam picker is opened and reports device 0. *)
Definition webcam_after_file : list event :=
  [ UserClicks load_video_button "flight.mp4";
    UserClicks play_video_button "";
    UserClicks detect_webcam_button "";
    WebcamPortSignal 0 ].

(** ** Notions used in the statements *)

(** [e2] answers whenever [e1] does, and the same. *)
Definition emit_le (e1 e2 : signal -> ThermoGUI -> option ThermoGUI) : Prop :=
  forall sig s s', e1 sig s = Some s' -> e2 sig s = Some s'.

(** Degrees to radians as the window computes it: [v * np.pi / 180]. *)
Definition radians (v : Z) : float := (float_of_int v * np_pi / 180)%float.

(** Degrees to radians as [np.pi / 180 * v]. *)
Definition radians' (v : Z) : float := (np_pi / 180 * float_of_int v)%float.

(** What the parameter synchronizer never writes: the window with the
    configuration (the frames apart), the values of the rotation and max
    hysteresis controls, the scaling label, and the enabled state of the
    swipe and init-count controls blanked out (the configuration is replaced
    by a fixed one that keeps the frames).  Two windows with the same
    [outside_synchronizer] differ at most in those places. *)
Definition outside_synchronizer (s : ThermoGUI) : ThermoGUI :=
  let u := ui s in
  let t := thermo_thread s in
  {| ui :=
       {| value := upd spin_eq_dec
                     (upd spin_eq_dec (value u) angle_value 0)
                     max_histeresis_value 0;
          spin_enabled := upd spin_eq_dec (spin_enabled u) num_init_value false;
          isChecked := isChecked u;
          check_enabled := upd check_eq_dec (check_enabled u) swipe_clusters_value false;
          button_enabled := button_enabled u;
          image_scaling_label := Caption "";
          global_progress_bar := global_progress_bar u;
          panel := panel u |};
     thermo_thread := set_app (set_frames (frames (app t)) example_app) t;
     is_stoppable := is_stoppable s;
     last_folder_opened := last_folder_opened s;
     capture := capture s;
     webcam_port := webcam_port s;
     windowTitle := windowTitle s |}.

(** The algorithm selectors, as a pair. *)
Definition selectors (s : ThermoGUI) : bool * bool :=
  (isChecked_of s knn_value, isChecked_of s gmm_value).

(** The subscribers of the worker's progress signal. *)
Definition progress_subscriptions (s : ThermoGUI) : list slot :=
  connected (thermo_thread s) iteration_signal.

Definition is_reset_click (ev : event) : bool :=
  match ev with
  | UserClicks reset_button _ => true
  | _ => false
  end.

(** A click on the load button that the file dialog answers with a path. *)
Definition is_successful_load (ev : event) : bool :=
  match ev with
  | UserClicks load_video_button video_file_name =>
      negb (String.eqb video_file_name "")
  | _ => false
  end.

Definition count_loads (evs : list event) : nat :=
  List.length (filter is_successful_load evs).

(** The total function behind [steps], for building example windows. *)
Definition after (E : External) (evs : list event) (s : ThermoGUI) : ThermoGUI :=
  match steps E 2 evs s with
  | Some s' => s'
  | None => s
  end.

(** A window in the middle of a file run: a video was loaded and started,
    and the worker delivered one frame of every kind. *)
Definition running_window : ThermoGUI :=
  after example_external
    [ UserClicks load_video_button "flight.mp4";
      UserClicks play_video_button "";
      WorkerSignal last_frame_signal (Frame example_frame);
      WorkerSignal attention_frame_signal (Frame example_frame);
      WorkerSignal edge_frame_signal (Frame (Gray 1 2 [7; 8]));
      WorkerSignal segment_frame_signal (Frame example_frame);
      WorkerSignal rectangle_frame_signal (Frame example_frame);
      WorkerSignal classes_frame_signal (Frame example_frame);
      WorkerSignal module_map_frame_signal (Frame example_frame);
      WorkerSignal iteration_signal (Index 0) ]
    example_window.

(** The subscriptions that [__connect_thermo_thread] makes on a new worker. *)
Definition frame_subscriptions (sig : thread_signal) : list slot :=
  match sig with
  | last_frame_signal => [slot_display_image]
  | attention_frame_signal => [slot_display_attention]
  | edge_frame_signal => [slot_display_canny_edges]
  | segment_frame_signal => [slot_display_segment_image]
  | rectangle_frame_signal => [slot_display_rectangle_image]
  | classes_frame_signal => [slot_display_classes_image]
  | module_map_frame_signal => [slot_display_module_map_image]
  | finish_signal => [slot_video_finished]
  | iteration_signal => []
  end.

(** ** The event loop with every emission run to its end *)

(** A connected slot run to completion (the nesting of emissions is at most
    two deep, see [emit_total]). *)
Definition handle (m : method) (s : ThermoGUI) : ThermoGUI :=
  match call 1 m s with
  | Some s' => s'
  | None => s
  end.

(** The window after a signal has run all its slots. *)
Definition emitted (sig : signal) (s : ThermoGUI) : ThermoGUI :=
  fold_left (fun s m => handle m s) (connections sig) s.

(** The dispatcher that runs every emission to its end. *)
Definition dispatch (sig : signal) (s : ThermoGUI) : option ThermoGUI :=
  Some (emitted sig s).

(** [step] with that dispatcher: one turn of the event loop, without fuel. *)
Definition react (E : External) (ev : event) (s : ThermoGUI) : option ThermoGUI :=
  match ev with
  | UserSetsValue w v =>
      if spin_enabled (ui s) w then setValue dispatch w v s else Some s
  | UserToggles c =>
      if check_enabled (ui s) c then
        if is_selector c then dispatch (clicked c) (select c s)
        else dispatch (stateChanged c) (set_checked c (negb (isChecked_of s c)) s)
      else Some s
  | UserClicks b video_file_name =>
      if button_enabled (ui s) b then on_clicked E dispatch b video_file_name s
      else Some s
  | WebcamPortSignal port => Some (__set_webcam_port port s)
  | WorkerSignal sig p => deliver sig p s
  end.

Fixpoint reacts (E : External) (evs : list event) (s : ThermoGUI) : option ThermoGUI :=
  match evs with
  | [] => Some s
  | ev :: evs' => s' <- react E ev s ;; reacts E evs' s'
  end.

(** ** Invariants of the event loop *)

(** Exactly one of the start and pause controls is enabled. *)
Definition start_xor_pause (s : ThermoGUI) : Prop :=
  button_enabled (ui s) play_video_button
  = negb (button_enabled (ui s) pause_video_button).

(** The selected algorithm decides which sibling control is editable: knn
    goes with a disabled swipe control and an enabled init-count control, gmm
    with the inverse; the selectors are exclusive. *)
Definition selector_gates_siblings (s : ThermoGUI) : Prop :=
  selectors_exclusive s /\
  (isChecked_of s knn_value = true ->
     check_enabled (ui s) swipe_clusters_value = false /\
     spin_enabled (ui s) num_init_value = true) /\
  (isChecked_of s gmm_value = true ->
     check_enabled (ui s) swipe_clusters_value = true /\
     spin_enabled (ui s) num_init_value = false).

(** Events whose handling replaces the worker or calls worker methods that
    are not part of the sources ([load_video], [use_webcam]). *)
Definition rebinds_source (ev : event) : bool :=
  match ev with
  | UserClicks load_video_button _ => true
  | UserClicks reset_button _ => true
  | WebcamPortSignal _ => true
  | _ => false
  end.

(** The stored hysteresis thresholds are in order. *)
Definition hysteresis_ordered (s : ThermoGUI) : Prop :=
  hysteresis_min_thresh (edge_detection_parameters (the_app s))
  < hysteresis_max_thresh (edge_detection_parameters (the_app s)).

(** The scaling control is locked at [k], and the stored scale is the one it
    shows. *)
Definition scaling_latched (k : Z) (s : ThermoGUI) : Prop :=
  spin_enabled (ui s) image_scaling_slider = false /\
  value_of s image_scaling_slider = k /\
  image_scaling (preprocessing_parameters (the_app s))
  = (float_of_int k * one_tenth)%float.

(** Events that end a run or bind another source: stop, reset, load, a
    webcam port, and a completion signal that says finished. *)
Definition ends_run (ev : event) : bool :=
  match ev with
  | UserClicks stop_video_button _ => true
  | WorkerSignal _ (Flag true) => true
  | _ => rebinds_source ev
  end.

(** The configuration [a] is the one that the controls (values [v], check
    states [c]) ask for: every field holds what its slot would store. *)
Definition consistent (a : ThermoApp) (v : spin -> Z) (c : check -> bool) : Prop :=
  image_scaling (preprocessing_parameters a)
    = (float_of_int (v image_scaling_slider) * one_tenth)%float /\
  image_rotation (preprocessing_parameters a) = radians (v angle_value) /\
  gaussian_blur (preprocessing_parameters a) = v blur_value /\
  red_threshold (preprocessing_parameters a) = v temperature_value /\
  hysteresis_max_thresh (edge_detection_parameters a) = v max_histeresis_value /\
  hysteresis_min_thresh (edge_detection_parameters a) = v min_histeresis_value /\
  dilation_steps (edge_detection_parameters a) = v dilation_value /\
  segment_detection_parameters a
    = {| d_rho := v delta_rho_value;
         d_theta := radians' (v delta_theta_value);
         min_num_votes := v min_votes_value;
         min_line_length := v min_length_value;
         max_line_gap := v max_gap_value;
         extension_pixels := v extend_segments_value |} /\
  num_init (segment_clustering_parameters a) = v num_init_value /\
  swipe_clusters (segment_clustering_parameters a) = c swipe_clusters_value /\
  num_clusters (segment_clustering_parameters a) = v num_clusters_value /\
  use_centers (segment_clustering_parameters a) = c use_centers_value /\
  use_angles (segment_clustering_parameters a) = c use_angle_value /\
  cluster_type (segment_clustering_parameters a)
    = (if c knn_value then "knn"%string
       else if c gmm_value then "gmm"%string
       else cluster_type (segment_clustering_parameters a)) /\
  cluster_cleaning_parameters a
    = {| max_angle_variation_mean := radians' (v max_angle_variation_mean_value);
         max_merging_angle := radians' (v max_merging_angle_value);
         max_endpoint_distance := radians' (v max_merging_distance_value) |} /\
  rectangle_detection_parameters a
    = {| aspect_ratio := v expected_ratio_value;
         aspect_ratio_relative_deviation := v ratio_max_deviation_value;
         min_area := v min_area_value |} /\
  should_undistort_image a = c undistort_image_box.

(** The worker's configuration agrees with the controls of the window. *)
Definition in_sync (s : ThermoGUI) : Prop :=
  consistent (the_app s) (value (ui s)) (isChecked (ui s)).

(** ** Well-formed worker events *)

(** What the slots accept: the edge panel converts from one channel, the
    other panels from three; the completion slot takes a flag and the
    progress slot an index. *)
Definition carries (sig : thread_signal) (p : payload) : bool :=
  match sig, p with
  | edge_frame_signal, Frame (Gray _ _ _) => true
  | edge_frame_signal, _ => false
  | finish_signal, Flag _ => true
  | finish_signal, _ => false
  | iteration_signal, Index _ => true
  | iteration_signal, _ => false
  | _, Frame (Color _ _ _) => true
  | _, _ => false
  end.

Definition well_formed (ev : event) : bool :=
  match ev with
  | WorkerSignal sig p => carries sig p
  | _ => true
  end.

(** The subscriptions are those that the window code makes: the ones of
    [__connect_thermo_thread], and some number of progress subscriptions. *)
Definition subscribed (s : ThermoGUI) : Prop :=
  (forall sig, sig <> iteration_signal ->
     connected (thermo_thread s) sig = frame_subscriptions sig) /\
  exists k, progress_subscriptions s = repeat slot_update_global_progress_bar k.

(** The panel that the slot connected to a frame signal paints
    ([__connect_thermo_thread] and the [__display_*] methods). *)
Definition panel_of (sig : thread_signal) : option view :=
  match sig with
  | last_frame_signal => Some video_view
  | attention_frame_signal => Some attention_view
  | edge_frame_signal => Some canny_edges_view
  | segment_frame_signal => Some segment_image_view
  | rectangle_frame_signal => Some rectangle_image_view
  | classes_frame_signal => Some class_image_view
  | module_map_frame_signal => Some module_image_view
  | finish_signal | iteration_signal => None
  end.

(** The run is not stoppable and the stop control is disabled. *)
Definition stop_locked (s : ThermoGUI) : Prop :=
  is_stoppable s = false /\ button_enabled (ui s) stop_video_button = false.

(** Events that can make the stop control available again: a click on load,
    and a completion signal that says not finished. *)
Definition unlocks_stop (ev : event) : bool :=
  match ev with
  | UserClicks load_video_button _ => true
  | WorkerSignal _ (Flag false) => true
  | _ => false
  end.

(** A window in which the user has edited one control of every group, so
    that every slot has run at least once. *)
Definition tuned_window : ThermoGUI :=
  after example_external
    [ UserSetsValue image_scaling_slider 12;
      UserSetsValue max_histeresis_value 150;
      UserSetsValue dilation_value 2;
      UserSetsValue delta_rho_value 1;
      UserSetsValue num_clusters_value 3;
      UserSetsValue max_merging_angle_value 5;
      UserSetsValue expected_ratio_value 2;
      UserToggles undistort_image_box ]
    example_window.

(** * Properties *)

(** ** Fuel: nested emission always ends, and two levels are enough *)

Lemma bind_Some {A B : Type} (x : option A) (k : A -> option B) (b : B) :
  bind x k = Some b -> exists a, x = Some a /\ k a = Some b.
Proof. destruct x; simpl; intros H; [eauto | discriminate]. Qed.

Lemma setValue_mono e1 e2 w v s s' :
  emit_le e1 e2 -> setValue e1 w v s = Some s' -> setValue e2 w v s = Some s'.
Proof. unfold setValue. intros H. destruct (_ =? _); auto. Qed.

Lemma setChecked_mono e1 e2 c b s s' :
  emit_le e1 e2 -> setChecked e1 c b s = Some s' -> setChecked e2 c b s = Some s'.
Proof. unfold setChecked. intros H. destruct (Bool.eqb _ _); auto. Qed.

Lemma invoke_mono e1 e2 m s s' :
  emit_le e1 e2 -> invoke e1 m s = Some s' -> invoke e2 m s = Some s'.
Proof.
  intros H. destruct m; simpl; auto.
  - unfold __update_preprocessing_params, __update_image_angle.
    intros H1. apply bind_Some in H1. destruct H1 as (a & Ha & Hb).
    destruct (_ =? 360).
    + rewrite (setValue_mono _ _ _ _ _ _ H Ha). exact Hb.
    + rewrite Ha. exact Hb.
  - unfold __update_histeresis_params.
    intros H1. apply bind_Some in H1. destruct H1 as (a & Ha & Hb).
    rewrite (setValue_mono _ _ _ _ _ _ H Ha). exact Hb.
Qed.

Lemma fold_slots_None (e : signal -> ThermoGUI -> option ThermoGUI) ms :
  fold_left (fun acc m => s' <- acc ;; invoke e m s') ms None = None.
Proof. induction ms; simpl; auto. Qed.

Lemma fold_slots_mono e1 e2 ms : emit_le e1 e2 -> forall acc s',
  fold_left (fun acc m => s' <- acc ;; invoke e1 m s') ms acc = Some s' ->
  fold_left (fun acc m => s' <- acc ;; invoke e2 m s') ms acc = Some s'.
Proof.
  intros H. induction ms as [|m ms IH]; simpl; intros acc s' Hacc; auto.
  destruct acc as [a|]; simpl in *.
  - destruct (invoke e1 m a) eqn:Hi.
    + rewrite (invoke_mono _ _ _ _ _ H Hi). auto.
    + rewrite fold_slots_None in Hacc. discriminate.
  - rewrite fold_slots_None in Hacc. discriminate.
Qed.

Lemma run_slots_mono e1 e2 ms s s' :
  emit_le e1 e2 -> run_slots e1 ms s = Some s' -> run_slots e2 ms s = Some s'.
Proof. intros H. apply fold_slots_mono, H. Qed.

Lemma emit_mono n : emit_le (emit n) (emit (S n)).
Proof.
  induction n as [|n IH]; intros sig s s'.
  - discriminate.
  - simpl emit at 1. intros H.
    change (emit (S (S n)) sig s) with (run_slots (emit (S n)) (connections sig) s).
    eapply run_slots_mono; eauto.
Qed.

Lemma emit_more n k sig s s' :
  emit n sig s = Some s' -> emit (k + n) sig s = Some s'.
Proof.
  induction k as [|k IH]; intros H; [exact H|].
  change (S k + n)%nat with (S (k + n)). apply emit_mono, IH, H.
Qed.

(** Evaluation of the state functions, leaving arithmetic and emission as
    they stand. *)
Ltac eval_state :=
  cbn -[emit float_of_int PrimFloat.mul PrimFloat.div Z.eqb Z.leb Z.add
        String.eqb Bool.eqb].

(** The preprocessing update when the rotation control is not at 360: no
    control is written, nothing is emitted. *)
Lemma update_preprocessing_params_quiet e s :
  (value_of s angle_value =? 360) = false ->
  __update_preprocessing_params e s
  = Some (__update_temperature_value (__update_blur_value
            (write_preprocessing
               (set_image_rotation (radians (value_of s angle_value)))
               (__update_image_scaling s)))).
Proof.
  intros Hv. unfold __update_preprocessing_params, __update_image_angle.
  unfold value_of in *. eval_state. rewrite Hv. reflexivity.
Qed.

(** The preprocessing update at 360: the control is reset, its signal runs
    the update once more, on the value 0. *)
Lemma update_preprocessing_params_wrap n s :
  value_of s angle_value = 360 ->
  __update_preprocessing_params (emit (S n)) s
  = Some (__update_temperature_value (__update_blur_value
            (write_preprocessing (set_image_rotation (radians 0))
               (__update_image_scaling (set_value angle_value 0 s))))).
Proof.
  intros Hv. unfold __update_preprocessing_params, __update_image_angle, setValue.
  unfold value_of in *. eval_state. rewrite Hv. eval_state.
  unfold __update_preprocessing_params, __update_image_angle, setValue.
  eval_state. reflexivity.
Qed.

Lemma update_preprocessing_params_total n s :
  exists s', __update_preprocessing_params (emit (S n)) s = Some s'.
Proof.
  destruct (value_of s angle_value =? 360) eqn:Hv.
  - apply Z.eqb_eq in Hv. rewrite (update_preprocessing_params_wrap n s Hv). eauto.
  - rewrite (update_preprocessing_params_quiet _ s Hv). eauto.
Qed.

(** The hysteresis update when the thresholds are in order. *)
Lemma update_histeresis_params_quiet e s :
  value_of s min_histeresis_value < value_of s max_histeresis_value ->
  __update_histeresis_params e s
  = Some (write_edge_detection
            (set_hysteresis_min_thresh (value_of s min_histeresis_value))
            (write_edge_detection
               (set_hysteresis_max_thresh (value_of s max_histeresis_value)) s)).
Proof.
  intros Hlt. unfold __update_histeresis_params, setValue.
  unfold value_of in *.
  destruct (Z.leb_spec (value (ui s) max_histeresis_value)
                       (value (ui s) min_histeresis_value)) as [Hle|_]; [lia|].
  rewrite Z.eqb_refl. reflexivity.
Qed.

(** The hysteresis update when they are not: the max control is moved to
    [min + 1], and its signal runs the update once more. *)
Lemma update_histeresis_params_clamp n s :
  value_of s max_histeresis_value <= value_of s min_histeresis_value ->
  __update_histeresis_params (emit (S n)) s
  = Some (write_edge_detection
            (set_hysteresis_min_thresh (value_of s min_histeresis_value))
            (write_edge_detection
               (set_hysteresis_max_thresh (value_of s min_histeresis_value + 1))
               (set_value max_histeresis_value
                  (value_of s min_histeresis_value + 1) s))).
Proof.
  intros Hle. unfold __update_histeresis_params at 1. unfold setValue at 1.
  unfold value_of in *.
  destruct (Z.leb_spec (value (ui s) max_histeresis_value)
                       (value (ui s) min_histeresis_value)) as [_|Hlt]; [|lia].
  destruct (Z.eqb_spec (value (ui s) max_histeresis_value)
                       (value (ui s) min_histeresis_value + 1)) as [Heq|_]; [lia|].
  eval_state. cbn [emit run_slots connections fold_left bind invoke].
  rewrite update_histeresis_params_quiet by (unfold value_of; eval_state; lia).
  unfold value_of. eval_state. reflexivity.
Qed.

Lemma update_histeresis_params_total n s :
  exists s', __update_histeresis_params (emit (S n)) s = Some s'.
Proof.
  destruct (Z.le_gt_cases (value_of s max_histeresis_value)
                          (value_of s min_histeresis_value)) as [Hle|Hlt].
  - rewrite (update_histeresis_params_clamp n s Hle). eauto.
  - rewrite (update_histeresis_params_quiet _ s Hlt). eauto.
Qed.

Lemma call_total n m s : exists s', call (S n) m s = Some s'.
Proof.
  unfold call. destruct m; simpl; eauto.
  - apply update_preprocessing_params_total.
  - apply update_histeresis_params_total.
Qed.

Lemma run_slots_total n ms : forall s, exists s', run_slots (emit (S n)) ms s = Some s'.
Proof.
  unfold run_slots. induction ms as [|m ms IH]; cbn [fold_left bind]; intros s; eauto.
  destruct (call_total n m s) as [s1 H1]. unfold call in H1. rewrite H1. apply IH.
Qed.

(** Every emission ends within two levels of nesting. *)
Lemma emit_total n sig s : exists s', emit (S (S n)) sig s = Some s'.
Proof. simpl. apply run_slots_total. Qed.

(** More fuel does not change the outcome. *)
Lemma emit_stable n sig s : emit (S (S n)) sig s = emit 2 sig s.
Proof.
  destruct (emit_total 0 sig s) as [s' H]. rewrite H.
  replace (S (S n)) with (n + 2)%nat by lia. apply emit_more, H.
Qed.

Lemma call_stable n m s : call (S n) m s = call 1 m s.
Proof.
  destruct (call_total 0 m s) as [s' H]. rewrite H. unfold call in *.
  eapply invoke_mono; [|exact H].
  intros sig s1 s2 H1. replace (S n) with (n + 1)%nat by lia. apply emit_more, H1.
Qed.

(** ** The parameter synchronizer *)

(** C1: for every pair (min, max) read by the hysteresis update, the stored
    min threshold is min; if max <= min the stored max threshold is min + 1
    and the max control is set to min + 1; if max > min the stored max
    threshold is max and the control keeps it.  The min control is never
    written. *)
Theorem C1_hysteresis_update : forall n s, exists s',
  call (S n) m_update_histeresis_params s = Some s' /\
  hysteresis_min_thresh (edge_detection_parameters (the_app s'))
    = value_of s min_histeresis_value /\
  hysteresis_max_thresh (edge_detection_parameters (the_app s'))
    = (if value_of s max_histeresis_value <=? value_of s min_histeresis_value
       then value_of s min_histeresis_value + 1
       else value_of s max_histeresis_value) /\
  value_of s' max_histeresis_value
    = (if value_of s max_histeresis_value <=? value_of s min_histeresis_value
       then value_of s min_histeresis_value + 1
       else value_of s max_histeresis_value) /\
  value_of s' min_histeresis_value = value_of s min_histeresis_value.
Proof.
  intros n s. unfold call, invoke.
  destruct (Z.leb_spec (value_of s max_histeresis_value)
                       (value_of s min_histeresis_value)) as [Hle|Hlt].
  - rewrite (update_histeresis_params_clamp n s Hle).
    eexists. split; [reflexivity|]. repeat split; reflexivity.
  - rewrite (update_histeresis_params_quiet _ s Hlt).
    eexists. split; [reflexivity|]. repeat split; reflexivity.
Qed.

(** The assignment of [__update_image_angle] itself stores 2*pi at 360; the
    reset of the control follows it.  (Here no slot is connected to the
    control: the dispatcher returns at once.) *)
Lemma update_image_angle_unconnected s :
  value_of s angle_value = 360 ->
  exists s', __update_image_angle (fun _ s => Some s) s = Some s' /\
    image_rotation (preprocessing_parameters (the_app s')) = radians 360 /\
    value_of s' angle_value = 0.
Proof.
  intros Hv. unfold __update_image_angle, setValue. unfold value_of in *.
  eval_state. rewrite Hv. eval_state.
  eexists. split; [reflexivity|]. split; reflexivity.
Qed.

(** C4: for every rotation input v in degrees, after the preprocessing update
    the stored rotation is v * pi / 180 and the control keeps v, except for
    v = 360, where the stored rotation is 0 and the control is reset to 0
    (the reset emits [valueChanged], whose slot stores the rotation of 0). *)
Theorem C4_rotation_update : forall n s, exists s',
  call (S n) m_update_preprocessing_params s = Some s' /\
  image_rotation (preprocessing_parameters (the_app s'))
    = (if value_of s angle_value =? 360 then 0%float
       else radians (value_of s angle_value)) /\
  value_of s' angle_value
    = (if value_of s angle_value =? 360 then 0 else value_of s angle_value).
Proof.
  intros n s. unfold call, invoke.
  destruct (value_of s angle_value =? 360) eqn:Hv.
  - apply Z.eqb_eq in Hv. rewrite (update_preprocessing_params_wrap n s Hv).
    eexists. split; [reflexivity|]. split; reflexivity.
  - rewrite (update_preprocessing_params_quiet _ s Hv).
    eexists. split; [reflexivity|]. split; reflexivity.
Qed.

(** ** What the synchronizer leaves alone *)

(** Two windows are equal when their fields are. *)
Lemma Ui_ext (u1 u2 : Ui_ThermoGUI_main_window) :
  value u1 = value u2 -> spin_enabled u1 = spin_enabled u2 ->
  isChecked u1 = isChecked u2 -> check_enabled u1 = check_enabled u2 ->
  button_enabled u1 = button_enabled u2 ->
  image_scaling_label u1 = image_scaling_label u2 ->
  global_progress_bar u1 = global_progress_bar u2 ->
  panel u1 = panel u2 -> u1 = u2.
Proof. destruct u1, u2; simpl; intros; subst; reflexivity. Qed.

Lemma ThermoGUI_ext (s1 s2 : ThermoGUI) :
  ui s1 = ui s2 -> thermo_thread s1 = thermo_thread s2 ->
  is_stoppable s1 = is_stoppable s2 ->
  last_folder_opened s1 = last_folder_opened s2 ->
  capture s1 = capture s2 -> webcam_port s1 = webcam_port s2 ->
  windowTitle s1 = windowTitle s2 -> s1 = s2.
Proof. destruct s1, s2; simpl; intros; subst; reflexivity. Qed.


Lemma upd_upd {K V : Type} (dec : forall a b : K, {a = b} + {a <> b})
  (f : K -> V) k v v' :
  upd dec (upd dec f k v) k v' = upd dec f k v'.
Proof.
  apply functional_extensionality. intros x. unfold upd.
  destruct (dec x k); reflexivity.
Qed.

Lemma upd_swap {K V : Type} (dec : forall a b : K, {a = b} + {a <> b})
  (f : K -> V) k1 v1 k2 v2 :
  k1 <> k2 ->
  upd dec (upd dec f k1 v1) k2 v2 = upd dec (upd dec f k2 v2) k1 v1.
Proof.
  intros Hne. apply functional_extensionality. intros x. unfold upd.
  destruct (dec x k2), (dec x k1); try reflexivity. congruence.
Qed.

Lemma outside_write_app f s :
  (forall a, frames (f a) = frames a) ->
  outside_synchronizer (write_app f s) = outside_synchronizer s.
Proof.
  intros Hf. unfold outside_synchronizer, write_app, the_app. eval_state.
  rewrite Hf. reflexivity.
Qed.

Lemma outside_set_value_angle v s :
  outside_synchronizer (set_value angle_value v s) = outside_synchronizer s.
Proof.
  unfold outside_synchronizer. eval_state. rewrite upd_upd. reflexivity.
Qed.

Lemma outside_set_value_max v s :
  outside_synchronizer (set_value max_histeresis_value v s) = outside_synchronizer s.
Proof.
  unfold outside_synchronizer. eval_state.
  rewrite (upd_swap _ _ max_histeresis_value v angle_value 0) by discriminate.
  rewrite upd_upd. reflexivity.
Qed.

Lemma outside_setEnabled_swipe b s :
  outside_synchronizer (setEnabled_check swipe_clusters_value b s)
  = outside_synchronizer s.
Proof.
  unfold outside_synchronizer. eval_state. rewrite upd_upd. reflexivity.
Qed.

Lemma outside_setEnabled_num_init b s :
  outside_synchronizer (setEnabled_spin num_init_value b s)
  = outside_synchronizer s.
Proof.
  unfold outside_synchronizer. eval_state. rewrite upd_upd. reflexivity.
Qed.

Lemma outside_set_label t s :
  outside_synchronizer (set_image_scaling_label t s) = outside_synchronizer s.
Proof. reflexivity. Qed.

Ltac outside_writes :=
  repeat first
    [ rewrite outside_set_value_angle | rewrite outside_set_value_max
    | rewrite outside_setEnabled_swipe | rewrite outside_setEnabled_num_init
    | rewrite outside_set_label
    | rewrite outside_write_app by (intros; reflexivity) ].

Lemma outside_update_image_scaling s :
  outside_synchronizer (__update_image_scaling s) = outside_synchronizer s.
Proof. unfold __update_image_scaling, write_preprocessing. outside_writes. reflexivity. Qed.

Lemma outside_update_blur_value s :
  outside_synchronizer (__update_blur_value s) = outside_synchronizer s.
Proof. unfold __update_blur_value, write_preprocessing. outside_writes. reflexivity. Qed.

Lemma outside_update_temperature_value s :
  outside_synchronizer (__update_temperature_value s) = outside_synchronizer s.
Proof. unfold __update_temperature_value, write_preprocessing. outside_writes. reflexivity. Qed.

Lemma outside_update_clustering_params s :
  outside_synchronizer (__update_clustering_params s) = outside_synchronizer s.
Proof.
  unfold __update_clustering_params, write_segment_clustering.
  destruct (isChecked_of _ knn_value); [|destruct (isChecked_of _ gmm_value)];
    outside_writes; reflexivity.
Qed.

Section OutsideEmit.

Variable e : signal -> ThermoGUI -> option ThermoGUI.
Hypothesis e_outside : forall sig s s',
  e sig s = Some s' -> outside_synchronizer s' = outside_synchronizer s.

Lemma outside_update_preprocessing_params s s' :
  __update_preprocessing_params e s = Some s' ->
  outside_synchronizer s' = outside_synchronizer s.
Proof.
  unfold __update_preprocessing_params, __update_image_angle, setValue.
  intros H. apply bind_Some in H. destruct H as (a & Ha & Hb).
  injection Hb as <-.
  rewrite outside_update_temperature_value, outside_update_blur_value.
  destruct (_ =? 360).
  - destruct (_ =? 0).
    + injection Ha as <-. unfold write_preprocessing. outside_writes.
      apply outside_update_image_scaling.
    + apply e_outside in Ha. rewrite Ha. unfold write_preprocessing.
      outside_writes. apply outside_update_image_scaling.
  - injection Ha as <-. unfold write_preprocessing. outside_writes.
    apply outside_update_image_scaling.
Qed.

Lemma outside_update_histeresis_params s s' :
  __update_histeresis_params e s = Some s' ->
  outside_synchronizer s' = outside_synchronizer s.
Proof.
  unfold __update_histeresis_params, setValue.
  intros H. apply bind_Some in H. destruct H as (a & Ha & Hb).
  injection Hb as <-. unfold write_edge_detection. outside_writes.
  destruct (_ =? _).
  - injection Ha as <-. reflexivity.
  - apply e_outside in Ha. rewrite Ha. outside_writes. reflexivity.
Qed.

Lemma outside_invoke m s s' :
  invoke e m s = Some s' -> outside_synchronizer s' = outside_synchronizer s.
Proof.
  destruct m; cbn [invoke]; intros H;
    try (injection H as <-);
    [ apply outside_update_image_scaling
    | unfold __update_image_distortion; outside_writes; reflexivity
    | apply outside_update_preprocessing_params, H
    | apply outside_update_histeresis_params, H
    | unfold __update_dilation_steps, write_edge_detection; outside_writes; reflexivity
    | unfold __update_edge_params; outside_writes; reflexivity
    | apply outside_update_clustering_params
    | unfold __update_cluster_cleaning_params; outside_writes; reflexivity
    | unfold __update_rectangle_detection_params; outside_writes; reflexivity ].
Qed.

Lemma outside_run_slots ms : forall s s',
  run_slots e ms s = Some s' -> outside_synchronizer s' = outside_synchronizer s.
Proof.
  unfold run_slots. induction ms as [|m ms IH]; cbn [fold_left bind]; intros s s' H.
  - injection H as <-. reflexivity.
  - destruct (invoke e m s) as [s1|] eqn:H1.
    + rewrite (IH _ _ H). exact (outside_invoke _ _ _ H1).
    + rewrite fold_slots_None in H. discriminate.
Qed.

End OutsideEmit.

Lemma outside_emit n : forall sig s s',
  emit n sig s = Some s' -> outside_synchronizer s' = outside_synchronizer s.
Proof.
  induction n as [|n IH]; intros sig s s' H; [discriminate|].
  cbn [emit] in H. eapply outside_run_slots; eauto.
Qed.

Lemma outside_call n m s s' :
  call n m s = Some s' -> outside_synchronizer s' = outside_synchronizer s.
Proof. apply outside_invoke. exact (outside_emit n). Qed.

(** ** Idempotence of the synchronizer operations *)

Ltac state_ext :=
  apply ThermoGUI_ext; [apply Ui_ext|..];
  eval_state; rewrite ?upd_upd; try reflexivity.

Lemma update_image_scaling_idem s :
  __update_image_scaling (__update_image_scaling s) = __update_image_scaling s.
Proof. reflexivity. Qed.

Lemma update_blur_value_idem s :
  __update_blur_value (__update_blur_value s) = __update_blur_value s.
Proof. reflexivity. Qed.

Lemma update_temperature_value_idem s :
  __update_temperature_value (__update_temperature_value s)
  = __update_temperature_value s.
Proof. reflexivity. Qed.

Lemma update_image_distortion_idem s :
  __update_image_distortion (__update_image_distortion s) = __update_image_distortion s.
Proof. reflexivity. Qed.

Lemma update_dilation_steps_idem s :
  __update_dilation_steps (__update_dilation_steps s) = __update_dilation_steps s.
Proof. reflexivity. Qed.

Lemma update_edge_params_idem s :
  __update_edge_params (__update_edge_params s) = __update_edge_params s.
Proof. reflexivity. Qed.

Lemma update_cluster_cleaning_params_idem s :
  __update_cluster_cleaning_params (__update_cluster_cleaning_params s)
  = __update_cluster_cleaning_params s.
Proof. reflexivity. Qed.

Lemma update_rectangle_detection_params_idem s :
  __update_rectangle_detection_params (__update_rectangle_detection_params s)
  = __update_rectangle_detection_params s.
Proof. reflexivity. Qed.

Lemma update_clustering_params_idem s :
  __update_clustering_params (__update_clustering_params s)
  = __update_clustering_params s.
Proof.
  unfold __update_clustering_params, isChecked_of.
  destruct (isChecked (ui s) knn_value) eqn:Hk;
    [|destruct (isChecked (ui s) gmm_value) eqn:Hg].
  - repeat (eval_state; rewrite Hk). state_ext.
  - repeat (eval_state; rewrite ?Hk; rewrite Hg). state_ext.
  - repeat (eval_state; rewrite ?Hk; rewrite Hg). reflexivity.
Qed.

Lemma update_preprocessing_params_idem n s s' :
  __update_preprocessing_params (emit (S n)) s = Some s' ->
  __update_preprocessing_params (emit (S n)) s' = Some s'.
Proof.
  destruct (value_of s angle_value =? 360) eqn:Hv.
  - apply Z.eqb_eq in Hv. rewrite (update_preprocessing_params_wrap n s Hv).
    intros H. injection H as <-.
    rewrite update_preprocessing_params_quiet by reflexivity. reflexivity.
  - rewrite (update_preprocessing_params_quiet _ s Hv).
    intros H. injection H as <-.
    rewrite update_preprocessing_params_quiet by exact Hv. reflexivity.
Qed.

Lemma update_histeresis_params_idem n s s' :
  __update_histeresis_params (emit (S n)) s = Some s' ->
  __update_histeresis_params (emit (S n)) s' = Some s'.
Proof.
  destruct (Z.le_gt_cases (value_of s max_histeresis_value)
                          (value_of s min_histeresis_value)) as [Hle|Hlt].
  - rewrite (update_histeresis_params_clamp n s Hle).
    intros H. injection H as <-.
    rewrite update_histeresis_params_quiet by (unfold value_of; eval_state; lia).
    reflexivity.
  - rewrite (update_histeresis_params_quiet _ s Hlt).
    intros H. injection H as <-.
    rewrite update_histeresis_params_quiet by exact Hlt. reflexivity.
Qed.

Lemma call_idem n m s s' :
  call (S n) m s = Some s' -> call (S n) m s' = Some s'.
Proof.
  unfold call. destruct m; cbn [invoke]; intros H;
    try (injection H as <-; f_equal;
         first [reflexivity | apply update_clustering_params_idem]).
  - apply update_preprocessing_params_idem with (s := s), H.
  - apply update_histeresis_params_idem with (s := s), H.
Qed.

(** The rotation step on its own, as the preprocessing update calls it. *)
Lemma update_image_angle_idem n s s' :
  __update_image_angle (emit (S n)) s = Some s' ->
  __update_image_angle (emit (S n)) s' = Some s'.
Proof.
  unfold __update_image_angle at 1. unfold setValue, value_of. eval_state.
  destruct (value (ui s) angle_value =? 360) eqn:Hv.
  - apply Z.eqb_eq in Hv. rewrite Hv. eval_state.
    cbn [emit run_slots connections fold_left bind invoke].
    rewrite update_preprocessing_params_quiet by reflexivity.
    intros H. injection H as <-. reflexivity.
  - intros H. injection H as <-.
    unfold __update_image_angle, value_of. eval_state. rewrite Hv. reflexivity.
Qed.

(** C5: the cluster-cleaning update stores all three fields as
    [np.pi / 180 * input], the max merge distance included: with the distance
    control at 10 the stored distance is 10 * pi / 180 (about 0.1745), not 10. *)
Theorem C5_cleaning_distance_converted :
  (forall s,
     let p := cluster_cleaning_parameters (the_app (__update_cluster_cleaning_params s)) in
     max_angle_variation_mean p = radians' (value_of s max_angle_variation_mean_value) /\
     max_merging_angle p = radians' (value_of s max_merging_angle_value) /\
     max_endpoint_distance p = radians' (value_of s max_merging_distance_value)) /\
  value_of example_window max_merging_distance_value = 10 /\
  max_endpoint_distance
    (cluster_cleaning_parameters
       (the_app (__update_cluster_cleaning_params example_window)))
    = 0x1.657184ae74487p-3%float /\
  max_endpoint_distance
    (cluster_cleaning_parameters
       (the_app (__update_cluster_cleaning_params example_window)))
    <> float_of_int 10.
Proof.
  split; [intros s; repeat split; reflexivity|].
  split; [reflexivity|]. split; [vm_compute; reflexivity|].
  vm_compute. intros H. discriminate H.
Qed.

(** ** The frame pipeline controller *)

(** C2 fails on a webcam run that follows a file run.  [__set_webcam_port]
    marks the run not stoppable but leaves the stop control as it finds it,
    and no other statement disables that control when a run starts; a click
    on an enabled stop control runs [__stop_all_frames], which does not
    consult [is_stoppable]: it terminates the worker and disables the stop
    control.  In the session [webcam_after_file] the file run has enabled the
    stop control, so the webcam run is Running, not stoppable, with the stop
    control enabled; the click on it then ends the run (Finished, start
    enabled, pause and stop disabled) instead of changing nothing. *)
Theorem C2_stop_after_webcam_switch :
  (forall port s,
     is_stoppable (__set_webcam_port port s) = false /\
     button_enabled (ui (__set_webcam_port port s)) stop_video_button
     = button_enabled (ui s) stop_video_button) /\
  (forall E fuel name s,
     button_enabled (ui s) stop_video_button = true ->
     step E fuel (UserClicks stop_video_button name) s
     = Some (__stop_all_frames s) /\
     thermo_thread (__stop_all_frames s) = terminate (thermo_thread s) /\
     button_enabled (ui (__stop_all_frames s)) stop_video_button = false) /\
  option_map (fun s => (is_stoppable s,
                        lifecycle (thermo_thread s),
                        button_enabled (ui s) play_video_button,
                        button_enabled (ui s) pause_video_button,
                        button_enabled (ui s) stop_video_button))
    (steps example_external 2 webcam_after_file example_window)
  = Some (false, Running, false, true, true) /\
  option_map (fun s => (is_stoppable s,
                        lifecycle (thermo_thread s),
                        button_enabled (ui s) play_video_button,
                        button_enabled (ui s) pause_video_button,
                        button_enabled (ui s) stop_video_button))
    (steps example_external 2
       (webcam_after_file ++ [UserClicks stop_video_button ""]) example_window)
  = Some (false, Finished, true, false, false).
Proof.
  split.
  { intros port s. unfold __set_webcam_port, __play_all_frames.
    eval_state. split; reflexivity. }
  split.
  { intros E fuel name s Hen. cbn [step]. rewrite Hen.
    repeat split; reflexivity. }
  split; vm_compute; reflexivity.
Qed.

(** C10: when the webcam picker reports a device index the window binds the
    source, marks the run not stoppable, sets the title and starts at once:
    the worker is started and not paused, the start control is disabled, the
    pause control enabled and the scaling control disabled.  The state left
    by the event is Running. *)
Theorem C10_webcam_starts_at_once : forall E fuel port s,
  step E fuel (WebcamPortSignal port) s = Some (__set_webcam_port port s) /\
  __set_webcam_port port s
    = __play_all_frames
        (setWindowTitle "Thermography: Webcam"
           (set_is_stoppable false
              (on_thread (use_webcam port) (set_webcam_port (Some port) s)))) /\
  webcam_port (__set_webcam_port port s) = Some port /\
  webcam (thermo_thread (__set_webcam_port port s)) = Some port /\
  is_stoppable (__set_webcam_port port s) = false /\
  windowTitle (__set_webcam_port port s) = "Thermography: Webcam"%string /\
  status (thermo_thread (__set_webcam_port port s)) = Started /\
  is_paused (thermo_thread (__set_webcam_port port s)) = false /\
  lifecycle (thermo_thread (__set_webcam_port port s)) = Running /\
  button_enabled (ui (__set_webcam_port port s)) play_video_button = false /\
  button_enabled (ui (__set_webcam_port port s)) pause_video_button = true /\
  spin_enabled (ui (__set_webcam_port port s)) image_scaling_slider = false /\
  button_enabled (ui (__set_webcam_port port s)) stop_video_button
    = button_enabled (ui s) stop_video_button.
Proof.
  intros E fuel port s. repeat split; reflexivity.
Qed.

(** C7, as stated, fails: the attention frame is scaled to the size of the
    input panel (640 x 480 in [example_window]), not to the size of the
    attention panel it is painted on (300 x 200). *)
Lemma C7_attention_scaled_to_input_panel :
  size (panel (ui example_window) attention_view) = {| width := 300; height := 200 |} /\
  size (panel (ui example_window) video_view) = {| width := 640; height := 480 |} /\
  exists s',
    __display_attention example_frame example_window = Some s' /\
    shown (panel (ui s') attention_view)
      = Pixmap (ScaledKeepAspectRatio {| width := 640; height := 480 |}
                  (Image 2 1 (Color 1 2 [(3, 2, 1); (6, 5, 4)]))) /\
    shown (panel (ui s') attention_view)
      <> Pixmap (ScaledKeepAspectRatio
                   (size (panel (ui example_window) attention_view))
                   (Image 2 1 (Color 1 2 [(3, 2, 1); (6, 5, 4)]))).
Proof.
  split; [reflexivity|]. split; [reflexivity|].
  eexists. split; [reflexivity|]. split; [reflexivity|].
  intros H. vm_compute in H. discriminate H.
Qed.

(** C7, amended: an edge-map frame is expanded from one channel to three,
    every other kind goes from BGR to RGB order; every kind except the
    classification map is scaled, keeping the aspect ratio, to the size of the
    input panel [video_view] and painted on its own panel; the classification
    map resizes its panel to the columns and rows of the buffer and is painted
    unscaled. *)
Theorem C7_frame_display : forall s r c gray px,
  let rgb_of_gray := Color r c (map (fun g => (g, g, g)) gray) in
  let rgb := Color r c (map (fun p => match p with (b, g, r') => (r', g, b) end) px) in
  let fit img := ScaledKeepAspectRatio (size (panel (ui s) video_view)) img in
  __display_canny_edges (Gray r c gray) s
    = Some (setPixmap canny_edges_view (fit (Image c r rgb_of_gray)) s) /\
  __display_image (Color r c px) s
    = Some (setPixmap video_view (fit (Image c r rgb)) s) /\
  __display_attention (Color r c px) s
    = Some (setPixmap attention_view (fit (Image c r rgb)) s) /\
  __display_segment_image (Color r c px) s
    = Some (setPixmap segment_image_view (fit (Image c r rgb)) s) /\
  __display_rectangle_image (Color r c px) s
    = Some (setPixmap rectangle_image_view (fit (Image c r rgb)) s) /\
  __display_module_map_image (Color r c px) s
    = Some (setPixmap module_image_view (fit (Image c r rgb)) s) /\
  __display_classes_image (Color r c px) s
    = Some (setPixmap class_image_view (Image c r rgb)
              (setFixedSize class_image_view c r s)) /\
  size (panel (ui (setPixmap class_image_view (Image c r rgb)
                     (setFixedSize class_image_view c r s))) class_image_view)
    = {| width := c; height := r |}.
Proof.
  intros s r c gray px. repeat split; reflexivity.
Qed.

(** ** Observations that events leave alone *)

Section Keeps.

Context {A : Type} (f : ThermoGUI -> A).
Hypothesis f_outside : forall s, f (outside_synchronizer s) = f s.

Lemma emit_keeps n sig s s' : emit n sig s = Some s' -> f s' = f s.
Proof.
  intros H. rewrite <- (f_outside s'), <- (f_outside s).
  f_equal. exact (outside_emit n sig s s' H).
Qed.

Lemma setValue_keeps n w v s s' :
  (forall x, f (set_value w v x) = f x) ->
  setValue (emit n) w v s = Some s' -> f s' = f s.
Proof.
  intros Hw. unfold setValue. destruct (_ =? _); intros H.
  - injection H as <-. reflexivity.
  - rewrite (emit_keeps _ _ _ _ H). apply Hw.
Qed.

Lemma setChecked_keeps n c b s s' :
  (forall x, f (set_checked c b x) = f x) ->
  setChecked (emit n) c b s = Some s' -> f s' = f s.
Proof.
  intros Hc. unfold setChecked. destruct (Bool.eqb _ _); intros H.
  - injection H as <-. reflexivity.
  - rewrite (emit_keeps _ _ _ _ H). apply Hc.
Qed.

Lemma load_webcam_keeps n s s' :
  (forall b x, f (set_checked undistort_image_box b x) = f x) ->
  (forall x, f (set_capture (Some WebcamDialog_started) x) = f x) ->
  __load_webcam (emit n) s = Some s' -> f s' = f s.
Proof.
  intros Hc Hcap. unfold __load_webcam. intros H.
  apply bind_Some in H. destruct H as (a & Ha & Hb).
  rewrite (setChecked_keeps _ _ _ _ _ (Hc false) Hb).
  rewrite (setChecked_keeps _ _ _ _ _ (Hc true) Ha). apply Hcap.
Qed.

Lemma deliver_keeps :
  (forall sl p s s', run_slot sl p s = Some s' -> f s' = f s) ->
  forall sig p s s', deliver sig p s = Some s' -> f s' = f s.
Proof.
  intros Hf sig p s. unfold deliver.
  generalize (connected (thermo_thread s) sig). intros l. revert s.
  induction l as [|sl l IH]; cbn [fold_left bind]; intros s s' H.
  - injection H as <-. reflexivity.
  - destruct (run_slot sl p s) as [s1|] eqn:H1.
    + rewrite (IH _ _ H). exact (Hf _ _ _ _ H1).
    + exfalso. clear -H. induction l as [|x l IHl]; cbn [fold_left bind] in H;
        [discriminate | auto].
Qed.

End Keeps.

(** Painting a frame, the completion slot and the progress slot write only
    panels, the enabled state of the run controls, and the progress bar. *)
Ltac run_slot_cases H :=
  match type of H with
  | run_slot ?sl ?p _ = Some _ =>
      destruct sl, p; cbn [run_slot] in H; try discriminate H;
      unfold __display_image, __display_attention, __display_canny_edges,
        __display_segment_image, __display_rectangle_image,
        __display_module_map_image, __display_classes_image, display_scaled in H;
      first [ injection H as <-
            | apply bind_Some in H; destruct H as (? & _ & H); injection H as <- ]
  end.

Lemma run_slot_selectors sl p s s' :
  run_slot sl p s = Some s' -> selectors s' = selectors s.
Proof. intros H. run_slot_cases H; reflexivity. Qed.

Lemma run_slot_progress_subscriptions sl p s s' :
  run_slot sl p s = Some s' -> progress_subscriptions s' = progress_subscriptions s.
Proof. intros H. run_slot_cases H; reflexivity. Qed.

Lemma run_slot_load_enabled sl p s s' :
  run_slot sl p s = Some s' ->
  button_enabled (ui s') load_video_button = button_enabled (ui s) load_video_button.
Proof. intros H. run_slot_cases H; reflexivity. Qed.

Lemma reset_app_keeps {A : Type} (f : ThermoGUI -> A) E n s s' :
  (forall x, f (outside_synchronizer x) = f x) ->
  (forall v x, f (set_value image_scaling_slider v x) = f x) ->
  __reset_app E (emit n) s = Some s' ->
  exists a, f a = f (set_thermo_thread (ThermoGuiThread_new (default_app E))
                       (on_thread terminate s)) /\
    s' = __connect_thermo_thread
           (setWindowTitle "Thermography"
              (set_webcam_port None
                 (set_capture None
                    (setAlignment module_image_view AlignCenter
                       (setText module_image_view "Module Map"
                          (setText rectangle_image_view "Rectangle Image"
                             (setText segment_image_view "Segment Image"
                                (setText canny_edges_view "Edges Image"
                                   (setText video_view "Input Image"
                                      (setProgress 0
                                         (__video_finished true a))))))))))).
Proof.
  intros Hout Hval. unfold __reset_app. intros H.
  apply bind_Some in H. destruct H as (a & Ha & Hb).
  exists a. split.
  - exact (setValue_keeps f Hout _ _ _ _ _ (Hval 10) Ha).
  - injection Hb as <-. reflexivity.
Qed.

(** Every turn of the event loop keeps the selectors exclusive. *)
Lemma step_selectors_exclusive E n ev s s' :
  step E n ev s = Some s' -> selectors_exclusive s -> selectors_exclusive s'.
Proof.
  assert (Hsel : forall x y, selectors y = selectors x ->
                 selectors_exclusive x -> selectors_exclusive y).
  { unfold selectors_exclusive, selectors. intros x y Hxy Hx.
    injection Hxy as -> ->. exact Hx. }
  intros H Hex. destruct ev as [w v|c|b name|port|sig p]; cbn [step] in H.
  - destruct (spin_enabled (ui s) w).
    + apply (Hsel s); [|exact Hex].
      apply (setValue_keeps selectors (fun _ => eq_refl) _ _ _ _ _ (fun _ => eq_refl) H).
    + injection H as <-. exact Hex.
  - destruct (check_enabled (ui s) c); [|injection H as <-; exact Hex].
    destruct c; cbn [is_selector] in H;
      apply (emit_keeps selectors (fun _ => eq_refl)) in H;
      first [ apply (Hsel s); [exact H | exact Hex]
            | unfold selectors_exclusive; unfold selectors in H;
              injection H as -> ->; reflexivity ].
  - destruct (button_enabled (ui s) b); [|injection H as <-; exact Hex].
    apply (Hsel s); [|exact Hex].
    destruct b; cbn [on_clicked] in H.
    + injection H as <-. unfold __load_video_from_file.
      destruct (String.eqb name ""); reflexivity.
    + apply (reset_app_keeps selectors) in H; try (intros; reflexivity).
      destruct H as (a & Ha & ->). exact Ha.
    + injection H as <-. unfold __play_all_frames.
      eval_state. destruct (is_stoppable s); reflexivity.
    + injection H as <-. reflexivity.
    + injection H as <-. unfold __pause_all_frames.
      eval_state. destruct (is_stoppable s); reflexivity.
    + apply (load_webcam_keeps selectors) in H; try (intros; reflexivity). exact H.
  - injection H as <-. apply (Hsel s); [|exact Hex].
    unfold __set_webcam_port, __play_all_frames. reflexivity.
  - apply (Hsel s); [|exact Hex].
    exact (deliver_keeps selectors run_slot_selectors _ _ _ _ H).
Qed.

(** C6: as long as the selectors are exclusive, after the clustering update a
    checked knn selector means cluster_type "knn", swipe control disabled and
    init-count control enabled; a checked gmm selector means cluster_type
    "gmm", swipe control enabled and init-count control disabled.  The update
    does not touch the selectors, and every turn of the event loop keeps them
    exclusive. *)
Theorem C6_clustering_selectors : forall s,
  selectors_exclusive s ->
  forall n, exists s',
    call (S n) m_update_clustering_params s = Some s' /\
    (isChecked_of s' knn_value = true ->
       cluster_type (segment_clustering_parameters (the_app s')) = "knn"%string /\
       check_enabled (ui s') swipe_clusters_value = false /\
       spin_enabled (ui s') num_init_value = true) /\
    (isChecked_of s' gmm_value = true ->
       cluster_type (segment_clustering_parameters (the_app s')) = "gmm"%string /\
       check_enabled (ui s') swipe_clusters_value = true /\
       spin_enabled (ui s') num_init_value = false) /\
    selectors s' = selectors s /\
    selectors_exclusive s' /\
    (forall E fuel ev s'', step E fuel ev s' = Some s'' -> selectors_exclusive s'').
Proof.
  intros s Hex n. exists (__update_clustering_params s).
  split; [reflexivity|].
  assert (Hsel : selectors (__update_clustering_params s) = selectors s).
  { unfold __update_clustering_params.
    destruct (isChecked_of _ knn_value); [|destruct (isChecked_of _ gmm_value)];
      reflexivity. }
  assert (Hex' : selectors_exclusive (__update_clustering_params s)).
  { unfold selectors_exclusive, selectors in *. injection Hsel as -> ->. exact Hex. }
  unfold selectors_exclusive, selectors, isChecked_of in *.
  injection Hsel as Hk Hg. rewrite Hk, Hg.
  split; [|split; [|split; [|split]]].
  - intros Hknn. unfold __update_clustering_params, isChecked_of. eval_state.
    rewrite Hknn. repeat split; reflexivity.
  - intros Hgmm. rewrite Hgmm, andb_true_r in Hex.
    unfold __update_clustering_params, isChecked_of. eval_state.
    rewrite Hex, Hgmm. repeat split; reflexivity.
  - reflexivity.
  - exact Hex.
  - intros E fuel ev s'' Hstep.
    apply (step_selectors_exclusive _ _ _ _ _ Hstep).
    unfold selectors_exclusive, isChecked_of. rewrite Hk, Hg. exact Hex.
Qed.

(** C6 at [example_window], where the gmm selector is the checked one. *)
Lemma C6_clustering_selectors_witness :
  selectors_exclusive example_window /\
  exists s', call 1 m_update_clustering_params example_window = Some s' /\
    cluster_type (segment_clustering_parameters (the_app s')) = "gmm"%string /\
    spin_enabled (ui s') num_init_value = false.
Proof.
  split; [reflexivity|].
  destruct (C6_clustering_selectors example_window eq_refl 0%nat)
    as (s' & Hcall & _ & Hgmm & _).
  exists s'. split; [exact Hcall|].
  injection Hcall as <-.
  destruct (Hgmm eq_refl) as (Ht & _ & Hi). split; [exact Ht | exact Hi].
Defined.

Lemma update_image_angle_total n s :
  exists s', __update_image_angle (emit (S n)) s = Some s'.
Proof.
  unfold __update_image_angle, setValue, value_of. eval_state.
  destruct (value (ui s) angle_value =? 360) eqn:Hv; [|eexists; reflexivity].
  apply Z.eqb_eq in Hv. rewrite Hv. eval_state.
  cbn [emit run_slots connections fold_left bind invoke].
  rewrite update_preprocessing_params_quiet by reflexivity.
  eexists. reflexivity.
Qed.

(** C8, as stated, fails in its list of side effects: the clustering update
    also writes the enabled state of the init-count control (here from
    enabled to disabled), which is neither a configuration write, nor the
    hysteresis echo, nor the 360-degree reset. *)
Lemma C8_clustering_update_toggles_control :
  exists s',
    call 1 m_update_clustering_params example_window = Some s' /\
    spin_enabled (ui example_window) num_init_value = true /\
    spin_enabled (ui s') num_init_value = false /\
    value (ui s') = value (ui example_window).
Proof.
  eexists. split; [reflexivity|]. repeat split; reflexivity.
Qed.

(** C8, amended: every operation of the parameter synchronizer is idempotent:
    run a second time on the state it left, it leaves that state as it is.
    Beyond the configuration it writes at most the value of the max
    hysteresis control (the correction echo), the value of the rotation
    control (the 360-degree reset), the scaling label, and the enabled state
    of the swipe and init-count controls.  The same holds of the rotation,
    blur and threshold steps that the preprocessing update is made of. *)
Theorem C8_synchronizer_idempotent : forall n m s,
  (exists s',
     call (S n) m s = Some s' /\
     call (S n) m s' = Some s' /\
     outside_synchronizer s' = outside_synchronizer s) /\
  (exists s',
     __update_image_angle (emit (S n)) s = Some s' /\
     __update_image_angle (emit (S n)) s' = Some s') /\
  __update_blur_value (__update_blur_value s) = __update_blur_value s /\
  __update_temperature_value (__update_temperature_value s)
    = __update_temperature_value s.
Proof.
  intros n m s. split; [|split; [|split]].
  - destruct (call_total n m s) as [s' H]. exists s'.
    split; [exact H|]. split.
    + exact (call_idem n m s s' H).
    + exact (outside_call (S n) m s s' H).
  - destruct (update_image_angle_total n s) as [s' H]. exists s'.
    split; [exact H|]. exact (update_image_angle_idem n s s' H).
  - apply update_blur_value_idem.
  - apply update_temperature_value_idem.
Qed.

Lemma connect_thermo_thread_fresh s sig :
  connected (thermo_thread s) = (fun _ => []) ->
  connected (thermo_thread (__connect_thermo_thread s)) sig = frame_subscriptions sig.
Proof.
  intros H. destruct sig; eval_state; rewrite H; reflexivity.
Qed.

(** What [__reset_app] does, in every state: it ends with a new idle worker
    that has the frame and completion subscriptions, progress at 0, and the
    placeholder caption on five panels; it leaves the attention panel and the
    classification panel as they were. *)
Lemma reset_app_spec E n s : exists s',
  __reset_app E (emit (S (S n))) s = Some s' /\
  lifecycle (thermo_thread s') = Idle /\
  input_file_name (thermo_thread s') = None /\
  webcam (thermo_thread s') = None /\
  (forall sig, connected (thermo_thread s') sig = frame_subscriptions sig) /\
  progress (global_progress_bar (ui s')) = 0 /\
  shown (panel (ui s') video_view) = Text "Input Image" /\
  shown (panel (ui s') canny_edges_view) = Text "Edges Image" /\
  shown (panel (ui s') segment_image_view) = Text "Segment Image" /\
  shown (panel (ui s') rectangle_image_view) = Text "Rectangle Image" /\
  shown (panel (ui s') module_image_view) = Text "Module Map" /\
  panel (ui s') attention_view = panel (ui s) attention_view /\
  panel (ui s') class_image_view = panel (ui s) class_image_view.
Proof.
  set (s0 := set_thermo_thread (ThermoGuiThread_new (default_app E))
               (on_thread terminate s)).
  assert (Htot : exists a, setValue (emit (S (S n))) image_scaling_slider 10 s0 = Some a).
  { unfold setValue. destruct (_ =? _); [eauto|]. apply emit_total. }
  destruct Htot as [a Ha].
  pose (f := fun x : ThermoGUI =>
          (set_app example_app (thermo_thread x), panel (ui x))).
  assert (Hf : f a = f s0).
  { exact (setValue_keeps f (fun _ => eq_refl) _ _ _ _ _ (fun _ => eq_refl) Ha). }
  unfold f in Hf. injection Hf as Hin Hwe Hpa Hst Hco Hp.
  eexists. split.
  { unfold __reset_app. fold s0. rewrite Ha. cbn [bind]. reflexivity. }
  split; [unfold lifecycle; eval_state; rewrite Hst; reflexivity|].
  split; [exact Hin|]. split; [exact Hwe|].
  split; [intros sig; apply connect_thermo_thread_fresh; exact Hco|].
  split; [reflexivity|].
  repeat (split; [reflexivity|]).
  split; eval_state; rewrite Hp; reflexivity.
Qed.

(** C3: [__reset_app] returns to Idle with a new worker, progress 0 and the
    subscriptions re-established, but it writes the placeholder caption on
    five of the seven panels only: in [running_window] the attention panel and
    the classification panel show a frame before the reset and still show it
    afterwards. *)
Theorem C3_reset_leaves_two_panels :
  (forall E n s, exists s',
     __reset_app E (emit (S (S n))) s = Some s' /\
     lifecycle (thermo_thread s') = Idle /\
     progress (global_progress_bar (ui s')) = 0 /\
     (forall sig, connected (thermo_thread s') sig = frame_subscriptions sig) /\
     shown (panel (ui s') video_view) = Text "Input Image" /\
     shown (panel (ui s') canny_edges_view) = Text "Edges Image" /\
     shown (panel (ui s') segment_image_view) = Text "Segment Image" /\
     shown (panel (ui s') rectangle_image_view) = Text "Rectangle Image" /\
     shown (panel (ui s') module_image_view) = Text "Module Map" /\
     panel (ui s') attention_view = panel (ui s) attention_view /\
     panel (ui s') class_image_view = panel (ui s) class_image_view) /\
  lifecycle (thermo_thread running_window) = Running /\
  option_map (fun s' => (lifecycle (thermo_thread s'),
                         shown (panel (ui s') video_view),
                         shown (panel (ui s') attention_view),
                         shown (panel (ui s') class_image_view)))
    (step example_external 2 (UserClicks reset_button "") running_window)
  = Some (Idle,
          Text "Input Image",
          Pixmap (ScaledKeepAspectRatio {| width := 640; height := 480 |}
                    (Image 2 1 (Color 1 2 [(3, 2, 1); (6, 5, 4)]))),
          Pixmap (Image 2 1 (Color 1 2 [(3, 2, 1); (6, 5, 4)]))).
Proof.
  split.
  - intros E n s. destruct (reset_app_spec E n s) as (s' & H & H1 & _ & _ & H2 & H3 & H4).
    exists s'. split; [exact H|]. split; [exact H1|]. split; [exact H3|].
    split; [exact H2|]. exact H4.
  - split; vm_compute; reflexivity.
Qed.

(** ** Progress subscriptions *)

Lemma step_load_enabled E n ev s s' :
  step E n ev s = Some s' ->
  button_enabled (ui s') load_video_button = button_enabled (ui s) load_video_button.
Proof.
  pose (f := fun x : ThermoGUI => button_enabled (ui x) load_video_button).
  change (step E n ev s = Some s' -> f s' = f s).
  intros H. destruct ev as [w v|c|b name|port|sig p]; cbn [step] in H.
  - destruct (spin_enabled (ui s) w); [|injection H as <-; reflexivity].
    exact (setValue_keeps f (fun _ => eq_refl) _ _ _ _ _ (fun _ => eq_refl) H).
  - destruct (check_enabled (ui s) c); [|injection H as <-; reflexivity].
    destruct (is_selector c);
      apply (emit_keeps f (fun _ => eq_refl)) in H; rewrite H;
      [destruct c|]; reflexivity.
  - destruct (button_enabled (ui s) b) eqn:Hb; [|injection H as <-; reflexivity].
    destruct b; cbn [on_clicked] in H.
    + injection H as <-. unfold __load_video_from_file.
      destruct (String.eqb name ""); reflexivity.
    + apply (reset_app_keeps f) in H; try (intros; reflexivity).
      destruct H as (a & Ha & ->). exact Ha.
    + injection H as <-. unfold __play_all_frames.
      eval_state. destruct (is_stoppable s); reflexivity.
    + injection H as <-. reflexivity.
    + injection H as <-. unfold __pause_all_frames.
      eval_state. destruct (is_stoppable s); reflexivity.
    + apply (load_webcam_keeps f) in H; try (intros; reflexivity). exact H.
  - injection H as <-. unfold f, __set_webcam_port, __play_all_frames. reflexivity.
  - exact (deliver_keeps f run_slot_load_enabled _ _ _ _ H).
Qed.

(** A turn of the event loop other than a reset adds one progress
    subscription when it is a successful load, and none otherwise. *)
Lemma step_progress_subscriptions E n ev s s' :
  step E n ev s = Some s' ->
  is_reset_click ev = false ->
  button_enabled (ui s) load_video_button = true ->
  progress_subscriptions s'
  = (progress_subscriptions s
     ++ if is_successful_load ev then [slot_update_global_progress_bar] else [])%list.
Proof.
  intros H Hnr Hen.
  destruct ev as [w v|c|b name|port|sig p]; cbn [step] in H;
    cbn [is_successful_load]; try rewrite app_nil_r.
  - destruct (spin_enabled (ui s) w); [|injection H as <-; reflexivity].
    exact (setValue_keeps progress_subscriptions (fun _ => eq_refl)
             _ _ _ _ _ (fun _ => eq_refl) H).
  - destruct (check_enabled (ui s) c); [|injection H as <-; reflexivity].
    destruct (is_selector c);
      apply (emit_keeps progress_subscriptions (fun _ => eq_refl)) in H; rewrite H;
      [destruct c|]; reflexivity.
  - destruct b; cbn [is_reset_click] in Hnr; try discriminate Hnr;
      try rewrite app_nil_r.
    + rewrite Hen in H. cbn [on_clicked] in H. injection H as <-.
      unfold __load_video_from_file.
      destruct (String.eqb name ""); cbn [negb]; [rewrite app_nil_r|]; reflexivity.
    + destruct (button_enabled (ui s) play_video_button);
        injection H as <-; [|reflexivity].
      unfold __play_all_frames. eval_state. destruct (is_stoppable s); reflexivity.
    + destruct (button_enabled (ui s) stop_video_button);
        injection H as <-; [|reflexivity].
      unfold __stop_all_frames, on_thread, terminate, progress_subscriptions.
      eval_state. destruct (status (thermo_thread s)); reflexivity.
    + destruct (button_enabled (ui s) pause_video_button);
        injection H as <-; [|reflexivity].
      unfold __pause_all_frames. eval_state. destruct (is_stoppable s); reflexivity.
    + destruct (button_enabled (ui s) detect_webcam_button);
        [|injection H as <-; reflexivity].
      cbn [on_clicked] in H.
      apply (load_webcam_keeps progress_subscriptions) in H;
        try (intros; reflexivity). exact H.
  - injection H as <-. unfold __set_webcam_port, __play_all_frames. reflexivity.
  - exact (deliver_keeps progress_subscriptions
             run_slot_progress_subscriptions _ _ _ _ H).
Qed.

Lemma steps_progress_subscriptions E n evs : forall s s',
  button_enabled (ui s) load_video_button = true ->
  forallb (fun ev => negb (is_reset_click ev)) evs = true ->
  steps E n evs s = Some s' ->
  progress_subscriptions s'
  = (progress_subscriptions s
     ++ repeat slot_update_global_progress_bar (count_loads evs))%list.
Proof.
  induction evs as [|ev evs IH]; intros s s' Hen Hnr H.
  - cbn [steps] in H. injection H as <-. cbn. rewrite app_nil_r. reflexivity.
  - cbn [steps] in H. apply bind_Some in H. destruct H as (s1 & H1 & H2).
    cbn [forallb] in Hnr. apply andb_true_iff in Hnr. destruct Hnr as [Hev Hevs].
    apply negb_true_iff in Hev.
    rewrite (IH s1 s'); [| |exact Hevs|exact H2].
    + rewrite (step_progress_subscriptions _ _ _ _ _ H1 Hev Hen).
      unfold count_loads. cbn [filter].
      destruct (is_successful_load ev); cbn [List.length repeat].
      * rewrite <- app_assoc. reflexivity.
      * rewrite app_nil_r. reflexivity.
    + rewrite (step_load_enabled _ _ _ _ _ H1). exact Hen.
Qed.

(** A progress event runs the progress slot once per subscription. *)
Lemma deliver_progress k i s :
  progress_subscriptions s = repeat slot_update_global_progress_bar k ->
  deliver iteration_signal (Index i) s
  = Some (Nat.iter k (__update_global_progress_bar i) s).
Proof.
  unfold deliver, progress_subscriptions. intros ->.
  generalize s. clear s. induction k as [|k IH]; intros s; [reflexivity|].
  cbn [repeat fold_left bind run_slot]. rewrite IH.
  rewrite Nat.iter_succ_r. reflexivity.
Qed.

(** The window that a logged delivery leaves is the one that the delivery
    leaves. *)
Lemma deliver_logged_window sig p s :
  option_map fst (deliver_logged sig p s) = deliver sig p s.
Proof.
  unfold deliver_logged, deliver.
  generalize (connected (thermo_thread s) sig). intros l.
  change (Some s) with (option_map fst (Some (s, @nil slot))).
  generalize (Some (s, @nil slot)). induction l as [|sl l IH]; intros acc;
    [reflexivity|].
  cbn [fold_left]. rewrite IH. f_equal.
  destruct acc as [[x tr]|]; [|reflexivity]. cbn [bind option_map fst snd].
  destruct (run_slot sl p x); reflexivity.
Qed.






(** ** Further properties of the controller *)

(** Every emission of a widget signal ends, within two levels of nesting, and
    its outcome does not depend on the fuel beyond that. *)
Theorem emission_terminates : forall n sig s,
  exists s', emit 2 sig s = Some s' /\ emit (S (S n)) sig s = Some s'.
Proof.
  intros n sig s. destruct (emit_total 0 sig s) as [s' H].
  exists s'. split; [exact H|]. rewrite emit_stable. exact H.
Qed.

(** Loading: a cancelled dialog changes nothing; a chosen file becomes the
    source, the run is marked stoppable, the title names the file, the end
    index -1 stands for no end, and the progress bar ranges over
    [0, number of frames - 1]. *)
Theorem load_binds_file_source : forall E c rest s,
  let video_file_name := String c rest in
  let s' := __load_video_from_file E video_file_name s in
  __load_video_from_file E "" s = s /\
  input_file_name (thermo_thread s') = Some video_file_name /\
  is_stoppable s' = true /\
  windowTitle s' = ("Thermography: " ++ video_file_name)%string /\
  last_folder_opened s' = Some (os_path_dirname E video_file_name) /\
  frames (the_app s')
    = video_frames E (Some video_file_name) (value_of s video_from_index)
        (if value_of s video_to_index =? -1 then None
         else Some (value_of s video_to_index)) /\
  minimum (global_progress_bar (ui s')) = 0 /\
  maximum (global_progress_bar (ui s'))
    = Z.of_nat (List.length (frames (the_app s'))) - 1 /\
  lifecycle (thermo_thread s') = lifecycle (thermo_thread s).
Proof.
  intros E c rest s. repeat split; reflexivity.
Qed.

(** Start and pause: start leaves the worker started and not paused, with the
    scaling and start controls disabled and the pause control enabled, and
    enables the stop control when the run is stoppable; pause sets the pause
    flag, enables the start control and disables the pause control. *)
Theorem start_and_pause : forall s,
  lifecycle (thermo_thread (__play_all_frames s)) = Running /\
  spin_enabled (ui (__play_all_frames s)) image_scaling_slider = false /\
  button_enabled (ui (__play_all_frames s)) play_video_button = false /\
  button_enabled (ui (__play_all_frames s)) pause_video_button = true /\
  button_enabled (ui (__play_all_frames s)) stop_video_button
    = (if is_stoppable s then true else button_enabled (ui s) stop_video_button) /\
  lifecycle (thermo_thread (__pause_all_frames (__play_all_frames s))) = Paused /\
  button_enabled (ui (__pause_all_frames s)) play_video_button = true /\
  button_enabled (ui (__pause_all_frames s)) pause_video_button = false /\
  button_enabled (ui (__pause_all_frames s)) stop_video_button
    = (if is_stoppable s then true else button_enabled (ui s) stop_video_button).
Proof.
  intros s. unfold __play_all_frames, __pause_all_frames.
  destruct (is_stoppable s) eqn:Hs;
    eval_state; rewrite ?Hs; eval_state; rewrite ?Hs;
    repeat split; reflexivity.
Qed.

(** Opening the webcam picker leaves the undistort box unchecked and, as the
    box is toggled through its signal, the configuration flag false. *)
Theorem load_webcam_clears_undistort : forall n s, exists s',
  __load_webcam (emit (S n)) s = Some s' /\
  capture s' = Some WebcamDialog_started /\
  isChecked_of s' undistort_image_box = false /\
  should_undistort_image (the_app s') = false.
Proof.
  intros n s. unfold __load_webcam, setChecked, isChecked_of. eval_state.
  destruct (isChecked (ui s) undistort_image_box) eqn:Hb;
    cbn [Bool.eqb bind emit run_slots connections fold_left invoke];
    eval_state; rewrite ?Hb;
    cbn [Bool.eqb bind emit run_slots connections fold_left invoke];
    eexists; (split; [reflexivity|]); repeat split; reflexivity.
Qed.

(** ** Emissions run to their end *)

Lemma call_handle n m s : call (S n) m s = Some (handle m s).
Proof.
  rewrite call_stable. unfold handle.
  destruct (call_total 0 m s) as [s' H]. rewrite H. reflexivity.
Qed.

Lemma run_slots_handle n ms : forall s,
  run_slots (emit (S n)) ms s = Some (fold_left (fun s m => handle m s) ms s).
Proof.
  unfold run_slots. induction ms as [|m ms IH]; intros s; cbn [fold_left bind];
    [reflexivity|].
  change (invoke (emit (S n)) m s) with (call (S n) m s).
  rewrite call_handle. apply IH.
Qed.

Lemma emit_dispatch n sig s : emit (S (S n)) sig s = dispatch sig s.
Proof. cbn [emit]. apply run_slots_handle. Qed.

Lemma emit_emitted n sig s s' : emit n sig s = Some s' -> s' = emitted sig s.
Proof.
  intros H. apply (emit_more n 2) in H.
  change (2 + n)%nat with (S (S n)) in H. rewrite emit_dispatch in H.
  injection H as <-. reflexivity.
Qed.

Lemma emit_le_dispatch n : emit_le (emit n) dispatch.
Proof. intros sig s s' H. rewrite (emit_emitted _ _ _ _ H). reflexivity. Qed.

(** Whatever fuel a turn of the event loop was given, if it ended it ended as
    [react] says. *)
Lemma step_react E n ev s s' : step E n ev s = Some s' -> react E ev s = Some s'.
Proof.
  pose proof (emit_le_dispatch n) as Hle.
  destruct ev as [w v|c|b name|port|sig p]; cbn [step react]; intros H.
  - destruct (spin_enabled (ui s) w); [|exact H].
    exact (setValue_mono _ _ _ _ _ _ Hle H).
  - destruct (check_enabled (ui s) c); [|exact H].
    destruct (is_selector c); apply Hle, H.
  - destruct (button_enabled (ui s) b); [|exact H].
    destruct b; cbn [on_clicked] in *; try exact H.
    + unfold __reset_app in *. apply bind_Some in H. destruct H as (a & Ha & Hb).
      rewrite (setValue_mono _ _ _ _ _ _ Hle Ha). exact Hb.
    + unfold __load_webcam in *. apply bind_Some in H. destruct H as (a & Ha & Hb).
      rewrite (setChecked_mono _ _ _ _ _ _ Hle Ha). cbn [bind].
      exact (setChecked_mono _ _ _ _ _ _ Hle Hb).
  - exact H.
  - exact H.
Qed.

Lemma steps_reacts E n evs : forall s s',
  steps E n evs s = Some s' -> reacts E evs s = Some s'.
Proof.
  induction evs as [|ev evs IH]; intros s s' H; [exact H|].
  cbn [steps reacts] in *. apply bind_Some in H. destruct H as (s1 & H1 & H2).
  rewrite (step_react _ _ _ _ _ H1). cbn [bind]. apply IH, H2.
Qed.

(** An invariant of the turns that [ok] lets through is an invariant of
    every run made of such turns. *)
Lemma reacts_invariant E (P : ThermoGUI -> Prop) (ok : event -> bool) :
  (forall ev s s', ok ev = true -> P s -> react E ev s = Some s' -> P s') ->
  forall evs s s',
    forallb ok evs = true -> P s -> reacts E evs s = Some s' -> P s'.
Proof.
  intros Hstep. induction evs as [|ev evs IH]; intros s s' Hok HP H.
  - injection H as <-. exact HP.
  - cbn [reacts] in H. apply bind_Some in H. destruct H as (s1 & H1 & H2).
    cbn [forallb] in Hok. apply andb_true_iff in Hok. destruct Hok as [Hev Hevs].
    exact (IH s1 s' Hevs (Hstep ev s s1 Hev HP H1) H2).
Qed.

(** The slots in closed form. *)
Lemma handle_update_preprocessing_params s :
  handle m_update_preprocessing_params s
  = if value_of s angle_value =? 360
    then __update_temperature_value (__update_blur_value
           (write_preprocessing (set_image_rotation (radians 0))
              (__update_image_scaling (set_value angle_value 0 s))))
    else __update_temperature_value (__update_blur_value
           (write_preprocessing
              (set_image_rotation (radians (value_of s angle_value)))
              (__update_image_scaling s))).
Proof.
  unfold handle, call. cbn [invoke].
  destruct (value_of s angle_value =? 360) eqn:Hv.
  - apply Z.eqb_eq in Hv. rewrite (update_preprocessing_params_wrap 0 s Hv).
    reflexivity.
  - rewrite (update_preprocessing_params_quiet _ s Hv). reflexivity.
Qed.

Lemma handle_update_histeresis_params s :
  handle m_update_histeresis_params s
  = if value_of s max_histeresis_value <=? value_of s min_histeresis_value
    then write_edge_detection
           (set_hysteresis_min_thresh (value_of s min_histeresis_value))
           (write_edge_detection
              (set_hysteresis_max_thresh (value_of s min_histeresis_value + 1))
              (set_value max_histeresis_value
                 (value_of s min_histeresis_value + 1) s))
    else write_edge_detection
           (set_hysteresis_min_thresh (value_of s min_histeresis_value))
           (write_edge_detection
              (set_hysteresis_max_thresh (value_of s max_histeresis_value)) s).
Proof.
  unfold handle, call. cbn [invoke].
  destruct (Z.leb_spec (value_of s max_histeresis_value)
                       (value_of s min_histeresis_value)) as [Hle|Hlt].
  - rewrite (update_histeresis_params_clamp 0 s Hle). reflexivity.
  - rewrite (update_histeresis_params_quiet _ s Hlt). reflexivity.
Qed.

(** A run on a concrete window, named. *)
Ltac run_concrete E evs s0 s' H :=
  let Hrun := fresh "Hrun" in
  assert (Hrun : match steps E 2 evs s0 with
                 | Some _ => true
                 | None => false
                 end = true) by (vm_compute; reflexivity);
  destruct (steps E 2 evs s0) as [s'|] eqn:H; [clear Hrun|discriminate Hrun].

(** ** Predicates kept by every slot *)

Lemma setValue_dispatch w v s :
  setValue dispatch w v s
  = Some (if value_of s w =? v then s else emitted (valueChanged w) (set_value w v s)).
Proof. unfold setValue, dispatch. destruct (_ =? _); reflexivity. Qed.

Lemma setChecked_dispatch c b s :
  setChecked dispatch c b s
  = Some (if Bool.eqb (isChecked_of s c) b then s
          else emitted (stateChanged c) (set_checked c b s)).
Proof. unfold setChecked, dispatch. destruct (Bool.eqb _ _); reflexivity. Qed.

Lemma deliver_preserves_payload (P : ThermoGUI -> Prop) p :
  (forall sl s s', run_slot sl p s = Some s' -> P s -> P s') ->
  forall sig s s', deliver sig p s = Some s' -> P s -> P s'.
Proof.
  intros HP sig s. unfold deliver.
  generalize (connected (thermo_thread s) sig). intros l. revert s.
  induction l as [|sl l IH]; cbn [fold_left bind]; intros s s' H Hs.
  - injection H as <-. exact Hs.
  - destruct (run_slot sl p s) as [s1|] eqn:H1.
    + exact (IH _ _ H (HP _ _ _ H1 Hs)).
    + exfalso. clear -H. induction l as [|x l IHl]; cbn [fold_left bind] in H;
        [discriminate | auto].
Qed.

Lemma deliver_preserves (P : ThermoGUI -> Prop) :
  (forall sl p s s', run_slot sl p s = Some s' -> P s -> P s') ->
  forall sig p s s', deliver sig p s = Some s' -> P s -> P s'.
Proof.
  intros HP sig p. apply deliver_preserves_payload. intros sl. apply HP.
Qed.

Section Preserved.

Variable P : ThermoGUI -> Prop.
Hypothesis P_handle : forall m s, P s -> P (handle m s).

Lemma emitted_preserves sig s : P s -> P (emitted sig s).
Proof.
  unfold emitted. generalize (connections sig). intros ms. revert s.
  induction ms as [|m ms IH]; cbn [fold_left]; intros s Hs; [exact Hs|].
  apply IH, P_handle, Hs.
Qed.

Lemma setValue_preserves w v s s' :
  (forall x, P x -> P (set_value w v x)) ->
  setValue dispatch w v s = Some s' -> P s -> P s'.
Proof.
  intros Hw. rewrite setValue_dispatch. intros H Hs. injection H as <-.
  destruct (_ =? _); [exact Hs|]. apply emitted_preserves, Hw, Hs.
Qed.

Lemma setChecked_preserves c b s s' :
  (forall x, P x -> P (set_checked c b x)) ->
  setChecked dispatch c b s = Some s' -> P s -> P s'.
Proof.
  intros Hc. rewrite setChecked_dispatch. intros H Hs. injection H as <-.
  destruct (Bool.eqb _ _); [exact Hs|]. apply emitted_preserves, Hc, Hs.
Qed.

Lemma load_webcam_preserves s s' :
  (forall b x, P x -> P (set_checked undistort_image_box b x)) ->
  (forall x, P x -> P (set_capture (Some WebcamDialog_started) x)) ->
  __load_webcam dispatch s = Some s' -> P s -> P s'.
Proof.
  intros Hc Hcap. unfold __load_webcam. intros H Hs.
  apply bind_Some in H. destruct H as (a & Ha & Hb).
  apply (setChecked_preserves _ _ _ _ (Hc false) Hb).
  apply (setChecked_preserves _ _ _ _ (Hc true) Ha). apply Hcap, Hs.
Qed.

End Preserved.

(** The two slots that write a control, case by case. *)
Ltac handle_pure := cbv beta iota delta [handle call invoke].

Ltac clustering_cases :=
  unfold __update_clustering_params;
  destruct (isChecked_of _ knn_value); [|destruct (isChecked_of _ gmm_value)].

Ltac handle_cases m :=
  destruct m;
  [ handle_pure | handle_pure
  | rewrite handle_update_preprocessing_params; destruct (_ =? 360)
  | rewrite handle_update_histeresis_params; destruct (_ <=? _)
  | handle_pure | handle_pure | handle_pure | handle_pure | handle_pure ].

Lemma handle_keeps {A : Type} (f : ThermoGUI -> A) m s :
  (forall x, f (outside_synchronizer x) = f x) -> f (handle m s) = f s.
Proof.
  intros Hf. rewrite <- (Hf (handle m s)), <- (Hf s). f_equal.
  exact (outside_call 1 m s _ (call_handle 0 m s)).
Qed.

Lemma run_slot_start_xor_pause sl p s s' :
  run_slot sl p s = Some s' -> start_xor_pause s -> start_xor_pause s'.
Proof.
  intros H Hs. run_slot_cases H; try exact Hs.
  unfold start_xor_pause. eval_state. rewrite negb_involutive. reflexivity.
Qed.

Lemma react_start_xor_pause E ev s s' :
  start_xor_pause s -> react E ev s = Some s' -> start_xor_pause s'.
Proof.
  assert (Hh : forall m x, start_xor_pause x -> start_xor_pause (handle m x)).
  { intros m x Hx. unfold start_xor_pause.
    rewrite (handle_keeps (fun y => button_enabled (ui y)) m x (fun _ => eq_refl)).
    exact Hx. }
  intros Hs H. destruct ev as [w v|c|b name|port|sig p]; cbn [react] in H.
  - destruct (spin_enabled (ui s) w); [|injection H as <-; exact Hs].
    exact (setValue_preserves _ Hh _ _ _ _ (fun _ Hx => Hx) H Hs).
  - destruct (check_enabled (ui s) c); [|injection H as <-; exact Hs].
    destruct (is_selector c); injection H as <-; apply emitted_preserves;
      try exact Hh; [destruct c|]; exact Hs.
  - destruct (button_enabled (ui s) b); [|injection H as <-; exact Hs].
    destruct b; cbn [on_clicked] in H.
    + injection H as <-. unfold __load_video_from_file.
      destruct (String.eqb name ""); exact Hs.
    + unfold __reset_app in H. apply bind_Some in H. destruct H as (a & _ & Hb).
      injection Hb as <-. reflexivity.
    + injection H as <-. unfold __play_all_frames, start_xor_pause.
      eval_state. destruct (is_stoppable s); reflexivity.
    + injection H as <-. reflexivity.
    + injection H as <-. unfold __pause_all_frames, start_xor_pause.
      eval_state. destruct (is_stoppable s); reflexivity.
    + exact (load_webcam_preserves _ Hh _ _ (fun _ _ Hx => Hx) (fun _ Hx => Hx) H Hs).
  - injection H as <-. unfold __set_webcam_port, __play_all_frames, start_xor_pause.
    reflexivity.
  - exact (deliver_preserves _ run_slot_start_xor_pause _ _ _ _ H Hs).
Qed.

(** Start and pause are never both available, nor both unavailable: whatever
    the events, exactly one of the two controls is enabled, provided it was so
    to begin with. *)
Theorem start_xor_pause_invariant : forall E fuel evs s s',
  start_xor_pause s ->
  steps E fuel evs s = Some s' ->
  start_xor_pause s'.
Proof.
  intros E fuel evs s s' Hs H. apply steps_reacts in H.
  apply (reacts_invariant E start_xor_pause (fun _ => true)
           (fun ev x x' _ Hx Hr => react_start_xor_pause E ev x x' Hx Hr)
           evs s s'); [|exact Hs|exact H].
  clear. induction evs; [reflexivity|exact IHevs].
Qed.

(** The start and pause controls over a session with a load, a start, a
    pause, a completion and a reset. *)
Lemma start_xor_pause_invariant_witness :
  let evs := [ UserClicks load_video_button "a.mp4";
               UserClicks play_video_button "";
               UserClicks pause_video_button "";
               WorkerSignal finish_signal (Flag true);
               UserClicks reset_button "" ] in
  start_xor_pause example_window /\
  exists s', steps example_external 2 evs example_window = Some s' /\
             start_xor_pause s'.
Proof.
  intros evs. split; [reflexivity|].
  run_concrete example_external evs example_window s' H.
  exists s'. split; [reflexivity|].
  exact (start_xor_pause_invariant example_external 2 evs example_window s'
           eq_refl H).
Defined.

Lemma update_clustering_params_gates s :
  selectors_exclusive s -> selector_gates_siblings (__update_clustering_params s).
Proof.
  unfold selector_gates_siblings, selectors_exclusive, __update_clustering_params,
    isChecked_of.
  intros Hex. eval_state.
  destruct (isChecked (ui s) knn_value) eqn:Hk;
    destruct (isChecked (ui s) gmm_value) eqn:Hg;
    try discriminate Hex; eval_state; rewrite ?Hk, ?Hg;
    repeat split; try reflexivity; intros; discriminate.
Qed.

Lemma handle_selector_gates_siblings m s :
  selector_gates_siblings s -> selector_gates_siblings (handle m s).
Proof.
  intros Hs. handle_cases m; try exact Hs.
  apply update_clustering_params_gates. exact (proj1 Hs).
Qed.

Lemma run_slot_selector_gates_siblings sl p s s' :
  run_slot sl p s = Some s' ->
  selector_gates_siblings s -> selector_gates_siblings s'.
Proof. intros H Hs. run_slot_cases H; exact Hs. Qed.

Lemma react_selector_gates_siblings E ev s s' :
  selector_gates_siblings s -> react E ev s = Some s' ->
  selector_gates_siblings s'.
Proof.
  pose proof handle_selector_gates_siblings as Hh.
  intros Hs H. destruct ev as [w v|c|b name|port|sig p]; cbn [react] in H.
  - destruct (spin_enabled (ui s) w); [|injection H as <-; exact Hs].
    exact (setValue_preserves _ Hh _ _ _ _ (fun _ Hx => Hx) H Hs).
  - destruct (check_enabled (ui s) c); [|injection H as <-; exact Hs].
    destruct c; cbn [is_selector] in H; injection H as <-;
      first [ apply emitted_preserves; [exact Hh | exact Hs]
            | unfold emitted; cbn [connections fold_left];
              apply update_clustering_params_gates; reflexivity ].
  - destruct (button_enabled (ui s) b); [|injection H as <-; exact Hs].
    destruct b; cbn [on_clicked] in H.
    + injection H as <-. unfold __load_video_from_file.
      destruct (String.eqb name ""); exact Hs.
    + unfold __reset_app in H. apply bind_Some in H. destruct H as (a & Ha & Hb).
      injection Hb as <-.
      exact (setValue_preserves _ Hh _ _ _ _ (fun _ Hx => Hx) Ha Hs).
    + injection H as <-. unfold __play_all_frames.
      destruct (is_stoppable _); exact Hs.
    + injection H as <-. exact Hs.
    + injection H as <-. unfold __pause_all_frames.
      destruct (is_stoppable _); exact Hs.
    + exact (load_webcam_preserves _ Hh _ _ (fun _ _ Hx => Hx) (fun _ Hx => Hx) H Hs).
  - injection H as <-. exact Hs.
  - exact (deliver_preserves _ run_slot_selector_gates_siblings _ _ _ _ H Hs).
Qed.

(** The algorithm choice gates its sibling controls at all times: if the
    selectors are exclusive and the swipe and init-count controls are enabled
    as the checked selector asks, this stays so through every run of events,
    a reset included. *)
Theorem selector_gates_siblings_invariant : forall E fuel evs s s',
  selector_gates_siblings s ->
  steps E fuel evs s = Some s' ->
  selector_gates_siblings s'.
Proof.
  intros E fuel evs s s' Hs H. apply steps_reacts in H.
  apply (reacts_invariant E selector_gates_siblings (fun _ => true)
           (fun ev x x' _ Hx Hr => react_selector_gates_siblings E ev x x' Hx Hr)
           evs s s'); [|exact Hs|exact H].
  clear. induction evs; [reflexivity|exact IHevs].
Qed.

Lemma tuned_window_gates : selector_gates_siblings tuned_window.
Proof.
  split; [vm_compute; reflexivity|].
  split; intros Hc; vm_compute in Hc; try discriminate Hc;
    split; vm_compute; reflexivity.
Qed.

(** The gating of the sibling controls over a session that switches the
    algorithm twice and resets: at the end knn is selected, the swipe control
    is disabled and the init-count control enabled. *)
Lemma selector_gates_siblings_invariant_witness :
  let evs := [ UserToggles knn_value;
               UserToggles swipe_clusters_value;
               UserToggles gmm_value;
               UserClicks reset_button "";
               UserToggles knn_value ] in
  selector_gates_siblings tuned_window /\
  exists s', steps example_external 2 evs tuned_window = Some s' /\
             selector_gates_siblings s'.
Proof.
  intros evs. split; [exact tuned_window_gates|].
  run_concrete example_external evs tuned_window s' H.
  exists s'. split; [reflexivity|].
  exact (selector_gates_siblings_invariant example_external 2 evs tuned_window s'
           tuned_window_gates H).
Defined.

(** The hysteresis update leaves the stored thresholds in order, whatever
    the controls held. *)
Lemma update_histeresis_params_ordered s :
  hysteresis_ordered (handle m_update_histeresis_params s).
Proof.
  rewrite handle_update_histeresis_params. unfold hysteresis_ordered, value_of.
  destruct (Z.leb_spec (value (ui s) max_histeresis_value)
                       (value (ui s) min_histeresis_value));
    eval_state; lia.
Qed.

Lemma handle_hysteresis_ordered m s :
  hysteresis_ordered s -> hysteresis_ordered (handle m s).
Proof.
  intros Hs. destruct m; try (handle_pure; exact Hs).
  - rewrite handle_update_preprocessing_params. destruct (_ =? 360); exact Hs.
  - apply update_histeresis_params_ordered.
  - handle_pure. clustering_cases; exact Hs.
Qed.

Lemma run_slot_hysteresis_ordered sl p s s' :
  run_slot sl p s = Some s' -> hysteresis_ordered s -> hysteresis_ordered s'.
Proof. intros H Hs. run_slot_cases H; exact Hs. Qed.

Lemma react_hysteresis_ordered E ev s s' :
  rebinds_source ev = false ->
  hysteresis_ordered s -> react E ev s = Some s' -> hysteresis_ordered s'.
Proof.
  pose proof handle_hysteresis_ordered as Hh.
  intros Hok Hs H. destruct ev as [w v|c|b name|port|sig p]; cbn [react] in H.
  - destruct (spin_enabled (ui s) w); [|injection H as <-; exact Hs].
    exact (setValue_preserves _ Hh _ _ _ _ (fun _ Hx => Hx) H Hs).
  - destruct (check_enabled (ui s) c); [|injection H as <-; exact Hs].
    destruct (is_selector c); injection H as <-; apply emitted_preserves;
      try exact Hh; [destruct c|]; exact Hs.
  - destruct (button_enabled (ui s) b); [|injection H as <-; exact Hs].
    destruct b; cbn [rebinds_source] in Hok; try discriminate Hok;
      cbn [on_clicked] in H.
    + injection H as <-. unfold __play_all_frames.
      destruct (is_stoppable _); exact Hs.
    + injection H as <-. unfold __stop_all_frames, on_thread, terminate.
      unfold hysteresis_ordered, the_app in *. eval_state.
      destruct (status (thermo_thread s)); exact Hs.
    + injection H as <-. unfold __pause_all_frames.
      destruct (is_stoppable _); exact Hs.
    + exact (load_webcam_preserves _ Hh _ _ (fun _ _ Hx => Hx) (fun _ Hx => Hx) H Hs).
  - discriminate Hok.
  - exact (deliver_preserves _ run_slot_hysteresis_ordered _ _ _ _ H Hs).
Qed.

(** The stored hysteresis thresholds stay in order: the hysteresis update
    orders them whatever the controls hold, and no other event, short of
    loading, resetting or binding a webcam, writes them. *)
Theorem hysteresis_ordered_invariant : forall E fuel evs s s',
  hysteresis_ordered s ->
  forallb (fun ev => negb (rebinds_source ev)) evs = true ->
  steps E fuel evs s = Some s' ->
  hysteresis_ordered s' /\
  (forall n x, exists x',
     call (S n) m_update_histeresis_params x = Some x' /\ hysteresis_ordered x').
Proof.
  intros E fuel evs s s' Hs Hok H. split.
  - apply steps_reacts in H.
    apply (reacts_invariant E hysteresis_ordered (fun ev => negb (rebinds_source ev))
             (fun ev x x' Hev Hx Hr =>
                react_hysteresis_ordered E ev x x'
                  (proj1 (negb_true_iff _) Hev) Hx Hr)
             evs s s' Hok Hs H).
  - intros n x. eexists. split; [apply call_handle|].
    apply update_histeresis_params_ordered.
Qed.

(** The order of the stored thresholds over a session that raises the lower
    threshold above the upper one and then lowers the upper one below it. *)
Lemma hysteresis_ordered_invariant_witness :
  let evs := [ UserSetsValue min_histeresis_value 200;
               UserSetsValue max_histeresis_value 10;
               UserClicks play_video_button "" ] in
  hysteresis_ordered example_window /\
  exists s', steps example_external 2 evs example_window = Some s' /\
             hysteresis_ordered s'.
Proof.
  intros evs. split; [reflexivity|].
  run_concrete example_external evs example_window s' H.
  exists s'. split; [reflexivity|].
  exact (proj1 (hysteresis_ordered_invariant example_external 2 evs
                  example_window s' eq_refl eq_refl H)).
Defined.

(** ** The scaling is latched while a run lasts *)

Lemma handle_scaling_latched k m s :
  scaling_latched k s -> scaling_latched k (handle m s).
Proof.
  intros Hs. destruct Hs as (Hen & Hval & Hsc).
  pose proof Hval as Hval'. unfold value_of in Hval'.
  assert (Hsc' : scaling_latched k (__update_image_scaling s)).
  { unfold scaling_latched, __update_image_scaling. eval_state.
    rewrite ?Hval, ?Hval'. repeat split; assumption || reflexivity. }
  destruct m; try (handle_pure; repeat split; assumption).
  - handle_pure. exact Hsc'.
  - rewrite handle_update_preprocessing_params.
    destruct (_ =? 360); unfold scaling_latched, __update_image_scaling;
      eval_state; unfold value_of; eval_state; rewrite ?Hval';
      repeat split; assumption || reflexivity.
  - rewrite handle_update_histeresis_params.
    destruct (_ <=? _); repeat split; assumption.
  - handle_pure. clustering_cases; repeat split; assumption.
Qed.

Lemma run_slot_scaling_latched k sl p s s' :
  p <> Flag true ->
  run_slot sl p s = Some s' -> scaling_latched k s -> scaling_latched k s'.
Proof.
  intros Hp H Hs. run_slot_cases H; try exact Hs.
  destruct b; [exfalso; exact (Hp eq_refl)|].
  destruct Hs as (Hen & Hval & Hsc). repeat split; assumption || reflexivity.
Qed.

Lemma react_scaling_latched E k ev s s' :
  ends_run ev = false ->
  scaling_latched k s -> react E ev s = Some s' -> scaling_latched k s'.
Proof.
  pose proof (handle_scaling_latched k) as Hh.
  intros Hok Hs H. destruct ev as [w v|c|b name|port|sig p]; cbn [react] in H.
  - destruct (spin_enabled (ui s) w) eqn:Hw; [|injection H as <-; exact Hs].
    destruct w;
      try (eapply (setValue_preserves _ Hh); [|exact H|exact Hs];
           intros x Hx; exact Hx).
    destruct Hs as (Hen & _). rewrite Hen in Hw. discriminate Hw.
  - destruct (check_enabled (ui s) c); [|injection H as <-; exact Hs].
    destruct (is_selector c); injection H as <-; apply emitted_preserves;
      try exact Hh; [destruct c|]; exact Hs.
  - destruct (button_enabled (ui s) b); [|injection H as <-; exact Hs].
    destruct b; cbn [ends_run rebinds_source] in Hok; try discriminate Hok;
      cbn [on_clicked] in H.
    + injection H as <-. destruct Hs as (Hen & Hval & Hsc).
      unfold value_of in Hval.
      unfold __play_all_frames, scaling_latched, __update_image_scaling.
      eval_state. unfold value_of. eval_state.
      destruct (is_stoppable s); eval_state; rewrite ?Hval;
        repeat split; reflexivity.
    + injection H as <-. unfold __pause_all_frames.
      destruct (is_stoppable _); exact Hs.
    + exact (load_webcam_preserves _ Hh _ _ (fun _ _ Hx => Hx) (fun _ Hx => Hx) H Hs).
  - discriminate Hok.
  - assert (Hp : p <> Flag true).
    { intros ->. destruct sig; discriminate Hok. }
    exact (deliver_preserves_payload _ p (fun sl x x' Hr Hx =>
             run_slot_scaling_latched k sl p x x' Hp Hr Hx) _ _ _ H Hs).
Qed.

(** The scaling is latched for a run: from the start of a run on, as long as
    no event stops, finishes or resets it or binds another source, the
    scaling control stays disabled at its value and the stored image scaling
    stays what the start wrote, whatever else the user edits; a pause does
    not unlock it. *)
Theorem scaling_latched_during_run : forall E fuel evs s s',
  forallb (fun ev => negb (ends_run ev)) evs = true ->
  steps E fuel evs (__play_all_frames s) = Some s' ->
  spin_enabled (ui s') image_scaling_slider = false /\
  value_of s' image_scaling_slider = value_of s image_scaling_slider /\
  image_scaling (preprocessing_parameters (the_app s'))
  = image_scaling (preprocessing_parameters (the_app (__play_all_frames s))) /\
  image_scaling (preprocessing_parameters (the_app s'))
  = (float_of_int (value_of s image_scaling_slider) * one_tenth)%float.
Proof.
  intros E fuel evs s s' Hok H. apply steps_reacts in H.
  assert (H0 : scaling_latched (value_of s image_scaling_slider) (__play_all_frames s)).
  { unfold __play_all_frames, scaling_latched, __update_image_scaling.
    eval_state. unfold value_of. eval_state.
    destruct (is_stoppable s); repeat split; reflexivity. }
  destruct (reacts_invariant E (scaling_latched (value_of s image_scaling_slider))
              (fun ev => negb (ends_run ev))
              (fun ev x x' Hev Hx Hr =>
                 react_scaling_latched E _ ev x x'
                   (proj1 (negb_true_iff _) Hev) Hx Hr)
              evs _ s' Hok H0 H) as (Hen & Hval & Hsc).
  destruct H0 as (_ & _ & Hsc0).
  repeat split; try assumption. rewrite Hsc, Hsc0. reflexivity.
Qed.

(** The latched scaling over a run during which the user tries the
    scaling control, turns the image, pauses and resumes. *)
Lemma scaling_latched_during_run_witness :
  let evs := [ UserSetsValue image_scaling_slider 5;
               UserSetsValue angle_value 90;
               UserClicks pause_video_button "";
               UserClicks play_video_button "" ] in
  exists s',
    steps example_external 2 evs (__play_all_frames example_window) = Some s' /\
    spin_enabled (ui s') image_scaling_slider = false /\
    value_of s' image_scaling_slider = 10.
Proof.
  intros evs.
  run_concrete example_external evs (__play_all_frames example_window) s' H.
  exists s'. split; [reflexivity|].
  destruct (scaling_latched_during_run example_external 2 evs example_window s'
              eq_refl H) as (Hen & Hval & _).
  split; [exact Hen|exact Hval].
Defined.

(** ** The configuration follows the controls *)

(** The hypothesis [in_sync s], field by field. *)
Ltac sync_open Hs :=
  unfold in_sync, consistent, the_app, radians, radians' in Hs;
  destruct Hs as (Hp1 & Hp2 & Hp3 & Hp4 & He1 & He2 & He3 & Hsd & Hc1 & Hc2 & Hc3
                  & Hc4 & Hc5 & Hct & Hcc & Hrd & Hud).

Ltac rewrite_known :=
  repeat match goal with
         | H : ?x = ?x |- _ => clear H
         | H : ?l = ?r |- _ => match r with context [l] => clear H end
         | H : ?l = _ |- context [?l] => rewrite H
         end.

Ltac sync_norm :=
  repeat (progress (eval_state;
                    unfold value_of, isChecked_of, the_app, radians, radians')).

Ltac known_branches :=
  repeat match goal with
         | H : ?b = _ |- context [if ?b then _ else _] => rewrite H; cbv beta iota
         end.

Ltac decide_branches :=
  repeat match goal with
         | |- context [if ?b then _ else _] =>
             lazymatch b with
             | context [if _ then _ else _] => fail
             | _ => destruct b eqn:?; cbv beta iota; sync_norm; known_branches
             end
         end.

Ltac sync_field :=
  first [ assumption | reflexivity
        | decide_branches; sync_norm; known_branches;
          first [ reflexivity | assumption | rewrite_known; reflexivity ] ].

Ltac sync_close :=
  unfold in_sync, consistent, __update_image_scaling, __update_blur_value,
    __update_temperature_value, __update_clustering_params;
  sync_norm; repeat split; sync_field.

Ltac sync_emitted :=
  unfold emitted; cbn [connections fold_left];
  rewrite ?handle_update_preprocessing_params, ?handle_update_histeresis_params;
  handle_pure; sync_norm; decide_branches; sync_close.

(** A changed control brings its part of the configuration along. *)
Lemma set_value_in_sync w v s :
  in_sync s -> in_sync (emitted (valueChanged w) (set_value w v s)).
Proof. intros Hs. sync_open Hs; destruct w; sync_emitted. Qed.

Lemma set_checked_in_sync c b s :
  is_selector c = false ->
  in_sync s -> in_sync (emitted (stateChanged c) (set_checked c b s)).
Proof.
  intros Hc Hs. sync_open Hs; destruct c; try discriminate Hc; sync_emitted.
Qed.

Lemma select_in_sync c s :
  is_selector c = true ->
  in_sync s -> in_sync (emitted (clicked c) (select c s)).
Proof.
  intros Hc Hs. sync_open Hs; destruct c; try discriminate Hc;
    unfold select; sync_emitted.
Qed.

Lemma handle_in_sync m s : in_sync s -> in_sync (handle m s).
Proof.
  intros Hs. sync_open Hs.
  destruct m;
    rewrite ?handle_update_preprocessing_params, ?handle_update_histeresis_params;
    handle_pure; sync_norm; decide_branches; sync_close.
Qed.

Lemma run_slot_in_sync sl p s s' :
  run_slot sl p s = Some s' -> in_sync s -> in_sync s'.
Proof. intros H Hs. run_slot_cases H; exact Hs. Qed.

Lemma react_in_sync E ev s s' :
  rebinds_source ev = false ->
  in_sync s -> react E ev s = Some s' -> in_sync s'.
Proof.
  pose proof handle_in_sync as Hh.
  intros Hok Hs H. destruct ev as [w v|c|b name|port|sig p]; cbn [react] in H.
  - destruct (spin_enabled (ui s) w); [|injection H as <-; exact Hs].
    rewrite setValue_dispatch in H. injection H as <-.
    destruct (_ =? _); [exact Hs|]. apply set_value_in_sync, Hs.
  - destruct (check_enabled (ui s) c); [|injection H as <-; exact Hs].
    destruct (is_selector c) eqn:Hc; injection H as <-.
    + apply select_in_sync; assumption.
    + apply set_checked_in_sync; assumption.
  - destruct (button_enabled (ui s) b); [|injection H as <-; exact Hs].
    destruct b; cbn [rebinds_source] in Hok; try discriminate Hok;
      cbn [on_clicked] in H.
    + injection H as <-. sync_open Hs. unfold __play_all_frames.
      sync_norm. decide_branches; sync_close.
    + injection H as <-. unfold __stop_all_frames, on_thread, terminate.
      unfold in_sync, the_app in *. eval_state.
      destruct (status (thermo_thread s)); exact Hs.
    + injection H as <-. unfold __pause_all_frames.
      destruct (is_stoppable _); exact Hs.
    + unfold __load_webcam in H. apply bind_Some in H. destruct H as (a & Ha & Hb).
      rewrite setChecked_dispatch in Ha, Hb. injection Ha as <-. injection Hb as <-.
      assert (H1 : in_sync (set_capture (Some WebcamDialog_started) s)) by exact Hs.
      revert H1. generalize (set_capture (Some WebcamDialog_started) s). intros x Hx.
      assert (H2 : in_sync (if Bool.eqb (isChecked_of x undistort_image_box) true
                            then x
                            else emitted (stateChanged undistort_image_box)
                                   (set_checked undistort_image_box true x))).
      { destruct (Bool.eqb _ _); [exact Hx|].
        apply set_checked_in_sync; [reflexivity|exact Hx]. }
      revert H2. generalize (if Bool.eqb (isChecked_of x undistort_image_box) true
                            then x
                            else emitted (stateChanged undistort_image_box)
                                   (set_checked undistort_image_box true x)).
      intros y Hy. destruct (Bool.eqb _ _); [exact Hy|].
      apply set_checked_in_sync; [reflexivity|exact Hy].
  - discriminate Hok.
  - exact (deliver_preserves _ run_slot_in_sync _ _ _ _ H Hs).
Qed.

(** The configuration follows the controls: once every configuration field
    holds what its control asks for, it does so after every run of events
    that neither loads, resets nor binds a webcam, and every slot run on its
    own keeps the agreement. *)
Theorem in_sync_invariant : forall E fuel evs s s',
  in_sync s ->
  forallb (fun ev => negb (rebinds_source ev)) evs = true ->
  steps E fuel evs s = Some s' ->
  in_sync s'.
Proof.
  intros E fuel evs s s' Hs Hok H. apply steps_reacts in H.
  exact (reacts_invariant E in_sync (fun ev => negb (rebinds_source ev))
           (fun ev x x' Hev Hx Hr =>
              react_in_sync E ev x x' (proj1 (negb_true_iff _) Hev) Hx Hr)
           evs s s' Hok Hs H).
Qed.

Lemma tuned_window_in_sync : in_sync tuned_window.
Proof.
  unfold in_sync, consistent.
  repeat match goal with |- _ /\ _ => split end; vm_compute; reflexivity.
Qed.

(** The agreement of configuration and controls over a session that turns
    the image to 360 degrees, raises the lower threshold above the upper one,
    switches the algorithm, starts the run and receives a frame. *)
Lemma in_sync_invariant_witness :
  let evs := [ UserSetsValue angle_value 360;
               UserSetsValue min_histeresis_value 200;
               UserToggles knn_value;
               UserClicks play_video_button "";
               WorkerSignal last_frame_signal (Frame example_frame) ] in
  in_sync tuned_window /\
  exists s', steps example_external 2 evs tuned_window = Some s' /\ in_sync s'.
Proof.
  intros evs. split; [exact tuned_window_in_sync|].
  run_concrete example_external evs tuned_window s' H.
  exists s'. split; [reflexivity|].
  exact (in_sync_invariant example_external 2 evs tuned_window s'
           tuned_window_in_sync eq_refl H).
Defined.

(** ** The event loop answers every well-formed event *)

Lemma emit_dispatch_ext n : emit (S (S n)) = dispatch.
Proof.
  apply functional_extensionality. intros sig.
  apply functional_extensionality. intros s. apply emit_dispatch.
Qed.

Lemma step_react_eq E n ev s : step E (S (S n)) ev s = react E ev s.
Proof. unfold step, react. rewrite emit_dispatch_ext. reflexivity. Qed.

Lemma steps_reacts_eq E n evs : forall s, steps E (S (S n)) evs s = reacts E evs s.
Proof.
  induction evs as [|ev evs IH]; intros s; [reflexivity|].
  cbn [steps reacts]. rewrite step_react_eq.
  destruct (react E ev s); cbn [bind]; [apply IH|reflexivity].
Qed.

Lemma run_slot_connected sl p s s' :
  run_slot sl p s = Some s' ->
  connected (thermo_thread s') = connected (thermo_thread s).
Proof. intros H. run_slot_cases H; reflexivity. Qed.

(** How a turn of the event loop changes the subscriptions: a reset starts
    over with those of [__connect_thermo_thread], a load with a path adds a
    progress subscription, everything else leaves them. *)
Lemma react_connected E ev s s' :
  react E ev s = Some s' ->
  (forall sig, connected (thermo_thread s') sig = frame_subscriptions sig) \/
  connected (thermo_thread s') = connected (thermo_thread s) \/
  (forall sig, connected (thermo_thread s') sig
     = if thread_signal_eq_dec sig iteration_signal
       then (connected (thermo_thread s) sig ++ [slot_update_global_progress_bar])%list
       else connected (thermo_thread s) sig).
Proof.
  pose (f := fun x : ThermoGUI => connected (thermo_thread x)).
  rewrite <- (step_react_eq E 0). intros H.
  destruct ev as [w v|c|b name|port|sig p]; cbn [step] in H.
  - right. left. destruct (spin_enabled (ui s) w); [|injection H as <-; reflexivity].
    exact (setValue_keeps f (fun _ => eq_refl) _ _ _ _ _ (fun _ => eq_refl) H).
  - right. left. destruct (check_enabled (ui s) c); [|injection H as <-; reflexivity].
    destruct (is_selector c);
      apply (emit_keeps f (fun _ => eq_refl)) in H; unfold f in H; rewrite H;
      [destruct c|]; reflexivity.
  - destruct (button_enabled (ui s) b); [|right; left; injection H as <-; reflexivity].
    destruct b; cbn [on_clicked] in H.
    + injection H as <-. unfold __load_video_from_file.
      destruct (String.eqb name ""); [right; left; reflexivity|].
      right. right. intros sig. eval_state.
      destruct (thread_signal_eq_dec sig iteration_signal) as [->|Hne].
      * reflexivity.
      * destruct (thread_signal_eq_dec iteration_signal sig); [congruence|reflexivity].
    + left. apply (reset_app_keeps f) in H; try (intros; reflexivity).
      destruct H as (a & Ha & ->). intros sig.
      apply connect_thermo_thread_fresh. exact Ha.
    + right. left. injection H as <-. unfold __play_all_frames.
      eval_state. destruct (is_stoppable s); reflexivity.
    + right. left. injection H as <-.
      unfold __stop_all_frames, on_thread, terminate. eval_state.
      destruct (status (thermo_thread s)); reflexivity.
    + right. left. injection H as <-. unfold __pause_all_frames.
      eval_state. destruct (is_stoppable s); reflexivity.
    + right. left.
      apply (load_webcam_keeps f) in H; try (intros; reflexivity). exact H.
  - right. left. injection H as <-.
    unfold __set_webcam_port, __play_all_frames. eval_state.
    destruct (is_stoppable s); reflexivity.
  - right. left. exact (deliver_keeps f run_slot_connected _ _ _ _ H).
Qed.

Lemma react_subscribed E ev s s' :
  subscribed s -> react E ev s = Some s' -> subscribed s'.
Proof.
  intros [Hfr [k Hk]] H. unfold subscribed, progress_subscriptions in *.
  destruct (react_connected E ev s s' H) as [Hc|[Hc|Hc]].
  - split; [intros sig _; apply Hc|]. exists 0%nat. rewrite Hc. reflexivity.
  - rewrite Hc. split; [exact Hfr|]. exists k. exact Hk.
  - split.
    + intros sig Hsig. rewrite Hc.
      destruct (thread_signal_eq_dec sig iteration_signal); [contradiction|].
      apply Hfr, Hsig.
    + exists (S k). rewrite Hc.
      destruct (thread_signal_eq_dec _ _); [|congruence].
      rewrite Hk. clear. induction k as [|k IHk]; [reflexivity|].
      change (repeat slot_update_global_progress_bar (S k))
        with (slot_update_global_progress_bar
              :: repeat slot_update_global_progress_bar k).
      rewrite <- app_comm_cons, IHk. reflexivity.
Qed.

Lemma steps_subscribed E n evs s s' :
  subscribed s -> steps E n evs s = Some s' -> subscribed s'.
Proof.
  intros Hs H. apply steps_reacts in H.
  apply (reacts_invariant E subscribed (fun _ => true)
           (fun ev x x' _ Hx Hr => react_subscribed E ev x x' Hx Hr)
           evs s s'); [|exact Hs|exact H].
  clear. induction evs; [reflexivity|assumption].
Qed.

Lemma deliver_answers sig p s :
  subscribed s -> carries sig p = true -> exists s', deliver sig p s = Some s'.
Proof.
  intros [Hfr [k Hk]] Hp.
  destruct (thread_signal_eq_dec sig iteration_signal) as [->|Hne].
  - destruct p; try discriminate Hp. rewrite (deliver_progress k _ _ Hk). eauto.
  - unfold deliver. rewrite (Hfr sig Hne).
    destruct sig; try congruence; destruct p as [[r c px|r c px]|b|i];
      try discriminate Hp; cbn; eauto.
Qed.

Lemma react_answers E ev s :
  subscribed s -> well_formed ev = true -> exists s', react E ev s = Some s'.
Proof.
  intros Hs Hev. destruct ev as [w v|c|b name|port|sig p]; cbn [react].
  - destruct (spin_enabled (ui s) w); [|eauto]. rewrite setValue_dispatch. eauto.
  - destruct (check_enabled (ui s) c); [|eauto].
    destruct (is_selector c); unfold dispatch; eauto.
  - destruct (button_enabled (ui s) b); [|eauto].
    destruct b; cbn [on_clicked]; eauto.
    + unfold __reset_app. rewrite setValue_dispatch. cbn [bind]. eauto.
    + unfold __load_webcam. rewrite setChecked_dispatch. cbn [bind].
      rewrite setChecked_dispatch. eauto.
  - eauto.
  - apply deliver_answers; assumption.
Qed.

(** The window made by [__init__] has the subscriptions of the window code. *)
Lemma init_subscribed E design title : subscribed (__init__ E design title).
Proof.
  split.
  - intros sig _. unfold __init__. apply connect_thermo_thread_fresh. reflexivity.
  - exists 0%nat. reflexivity.
Qed.

(** The event loop does not raise: a window with the subscriptions of the
    window code answers every run of events whose worker signals carry what
    their slots accept (one-channel frames on the edge signal, three-channel
    frames on the other frame signals, a flag on completion and an index on
    progress), at every fuel from two on, and ends with such subscriptions
    again; the window that [__init__] makes is one. *)
Theorem event_loop_answers : forall E design title,
  subscribed (__init__ E design title) /\
  (forall n evs s,
     subscribed s ->
     forallb well_formed evs = true ->
     exists s', steps E (S (S n)) evs s = Some s' /\ subscribed s').
Proof.
  intros E design title. split; [apply init_subscribed|].
  intros n evs. induction evs as [|ev evs IH]; intros s Hs Hok.
  - exists s. split; [reflexivity|exact Hs].
  - cbn [forallb] in Hok. apply andb_true_iff in Hok. destruct Hok as [Hev Hevs].
    destruct (react_answers E ev s Hs Hev) as [s1 H1].
    destruct (IH s1 (react_subscribed E ev s s1 Hs H1) Hevs) as (s' & H & Hs').
    exists s'. split; [|exact Hs'].
    cbn [steps]. rewrite step_react_eq, H1. exact H.
Qed.

(** ** What a reset does to the configuration *)

(** A reset replaces the worker, and with it the configuration, by a new one,
    but it writes one control only, the scaling control; no slot runs unless
    that control changes.  So after a reset every other control and every box
    still shows what the user set, the stoppable mark and the last folder are
    kept, while the edge, segment, clustering, cleaning, rectangle and
    undistort settings of the worker are the defaults of a new worker.  If
    the scaling control was at 10 the whole configuration is the default one;
    if not, the preprocessing update runs and stores the blur and temperature
    of the controls and the scaling 1.0 next to the defaults. *)
Theorem reset_forgets_edits : forall E n s, exists s',
  __reset_app E (emit (S (S n))) s = Some s' /\
  (forall c, isChecked_of s' c = isChecked_of s c) /\
  (forall w, w <> image_scaling_slider -> w <> angle_value ->
     value_of s' w = value_of s w) /\
  value_of s' image_scaling_slider = 10 /\
  is_stoppable s' = is_stoppable s /\
  last_folder_opened s' = last_folder_opened s /\
  edge_detection_parameters (the_app s')
  = edge_detection_parameters (default_app E) /\
  segment_detection_parameters (the_app s')
  = segment_detection_parameters (default_app E) /\
  segment_clustering_parameters (the_app s')
  = segment_clustering_parameters (default_app E) /\
  cluster_cleaning_parameters (the_app s')
  = cluster_cleaning_parameters (default_app E) /\
  rectangle_detection_parameters (the_app s')
  = rectangle_detection_parameters (default_app E) /\
  should_undistort_image (the_app s') = should_undistort_image (default_app E) /\
  (value_of s image_scaling_slider = 10 ->
   the_app s' = default_app E /\ value (ui s') = value (ui s)) /\
  (value_of s image_scaling_slider <> 10 ->
   image_scaling (preprocessing_parameters (the_app s'))
   = (float_of_int 10 * one_tenth)%float /\
   gaussian_blur (preprocessing_parameters (the_app s')) = value_of s blur_value /\
   red_threshold (preprocessing_parameters (the_app s'))
   = value_of s temperature_value).
Proof.
  intros E n s. rewrite emit_dispatch_ext. unfold __reset_app.
  rewrite setValue_dispatch. cbn [bind]. eexists. split; [reflexivity|].
  change (value_of (set_thermo_thread (ThermoGuiThread_new (default_app E))
                      (on_thread terminate s)) image_scaling_slider)
    with (value_of s image_scaling_slider).
  destruct (value_of s image_scaling_slider =? 10) eqn:Hv.
  - apply Z.eqb_eq in Hv.
    repeat split; try reflexivity; try (intros; reflexivity);
      try exact Hv; try congruence.
  - apply Z.eqb_neq in Hv.
    unfold emitted. cbn [connections fold_left].
    rewrite handle_update_preprocessing_params. handle_pure.
    unfold __update_image_scaling, __update_blur_value, __update_temperature_value.
    sync_norm.
    unfold value_of in Hv.
    destruct (value (ui s) angle_value =? 360);
      repeat split; try contradiction; sync_norm; try reflexivity;
      try (intros c; destruct c; reflexivity);
      intros w Hw1 Hw2; destruct w; sync_norm; try reflexivity; contradiction.
Qed.

(** ** Frame events *)

(** A frame event writes the panel of its kind and nothing else in the
    window: the other panels, the controls, the progress bar and the worker
    are as before; of the panel it keeps the alignment and, except for the
    classification panel, the size. *)
Theorem frame_paints_own_panel : forall s sig f s' vw,
  subscribed s ->
  panel_of sig = Some vw ->
  deliver sig (Frame f) s = Some s' ->
  s' = set_panel vw (panel (ui s') vw) s /\
  alignment (panel (ui s') vw) = alignment (panel (ui s) vw) /\
  (vw <> class_image_view -> size (panel (ui s') vw) = size (panel (ui s) vw)).
Proof.
  intros s sig f s' vw [Hfr _] Hvw H. unfold deliver in H.
  rewrite Hfr in H by (intros ->; discriminate Hvw).
  destruct sig; try discriminate Hvw; injection Hvw as <-;
    cbn [frame_subscriptions fold_left bind run_slot] in H;
    unfold __display_image, __display_attention, __display_canny_edges,
      __display_segment_image, __display_rectangle_image,
      __display_module_map_image, __display_classes_image, display_scaled in H;
    apply bind_Some in H; destruct H as (g & _ & H); injection H as <-;
    (split; [|split; [reflexivity|intros Hne; first [reflexivity|contradiction]]]);
    unfold setPixmap, __resize_video_view, setFixedSize;
    state_ext; eval_state; rewrite ?upd_upd; reflexivity.
Qed.

(** The panel written by a classification frame sent to the example
    window. *)
Lemma frame_paints_own_panel_witness :
  exists s',
    deliver classes_frame_signal (Frame example_frame) example_window = Some s' /\
    s' = set_panel class_image_view (panel (ui s') class_image_view) example_window.
Proof.
  eexists. split; [reflexivity|].
  exact (proj1 (frame_paints_own_panel example_window classes_frame_signal
                  example_frame _ class_image_view
                  (init_subscribed example_external example_ui "Thermography")
                  eq_refl eq_refl)).
Defined.

(** ** Progress events *)

Lemma update_global_progress_bar_idem i s :
  __update_global_progress_bar i (__update_global_progress_bar i s)
  = __update_global_progress_bar i s.
Proof. unfold __update_global_progress_bar, setProgress. state_ext. Qed.

(** The progress subscriptions that loads pile up are harmless, and without
    one the event is lost: with the subscriptions of the window code a
    progress event leaves the window as one call of the progress slot does
    when at least one load has subscribed, and unchanged when none has. *)
Theorem progress_event_once : forall s i,
  subscribed s ->
  deliver iteration_signal (Index i) s
  = Some (match progress_subscriptions s with
          | [] => s
          | _ :: _ => __update_global_progress_bar i s
          end).
Proof.
  intros s i [_ [k Hk]]. rewrite (deliver_progress k i s Hk), Hk. f_equal.
  destruct k as [|k]; [reflexivity|]. cbn [repeat]. clear Hk.
  induction k as [|k IH]; [reflexivity|].
  rewrite Nat.iter_succ, IH. apply update_global_progress_bar_idem.
Qed.

(** A progress event after two loads: two subscriptions, one effect. *)
Lemma progress_event_once_witness :
  let evs := [ UserClicks load_video_button "a.mp4";
               UserClicks load_video_button "b.mp4" ] in
  exists s',
    steps example_external 2 evs example_window = Some s' /\
    progress_subscriptions s'
    = [slot_update_global_progress_bar; slot_update_global_progress_bar] /\
    deliver iteration_signal (Index 2) s'
    = Some (__update_global_progress_bar 2 s').
Proof.
  intros evs.
  run_concrete example_external evs example_window s' H.
  exists s'. split; [reflexivity|].
  assert (Hsub : progress_subscriptions s'
                 = [slot_update_global_progress_bar; slot_update_global_progress_bar]).
  { rewrite (steps_progress_subscriptions example_external 2 evs example_window s'
               eq_refl eq_refl H). reflexivity. }
  split; [exact Hsub|].
  rewrite (progress_event_once s' 2
             (steps_subscribed example_external 2 evs example_window s'
                (init_subscribed example_external example_ui "Thermography") H)).
  rewrite Hsub. reflexivity.
Defined.

(** ** A webcam run offers no stop *)

Lemma handle_stop_locked m s : stop_locked s -> stop_locked (handle m s).
Proof.
  intros Hs. unfold stop_locked.
  rewrite (handle_keeps (fun y => is_stoppable y) m s (fun _ => eq_refl)).
  rewrite (handle_keeps (fun y => button_enabled (ui y)) m s (fun _ => eq_refl)).
  exact Hs.
Qed.

Lemma run_slot_stop_locked sl p s s' :
  p <> Flag false ->
  run_slot sl p s = Some s' -> stop_locked s -> stop_locked s'.
Proof.
  intros Hp H Hs. run_slot_cases H; try exact Hs.
  destruct b; [|exfalso; exact (Hp eq_refl)].
  destruct Hs as [Hst _]. split; [exact Hst|reflexivity].
Qed.

Lemma react_stop_locked E ev s s' :
  unlocks_stop ev = false ->
  stop_locked s -> react E ev s = Some s' -> stop_locked s'.
Proof.
  pose proof handle_stop_locked as Hh.
  intros Hok Hs H. destruct ev as [w v|c|b name|port|sig p]; cbn [react] in H.
  - destruct (spin_enabled (ui s) w); [|injection H as <-; exact Hs].
    exact (setValue_preserves _ Hh _ _ _ _ (fun _ Hx => Hx) H Hs).
  - destruct (check_enabled (ui s) c); [|injection H as <-; exact Hs].
    destruct (is_selector c); injection H as <-; apply emitted_preserves;
      try exact Hh; [destruct c|]; exact Hs.
  - destruct (button_enabled (ui s) b); [|injection H as <-; exact Hs].
    destruct Hs as [Hst Hbt].
    destruct b; cbn [unlocks_stop] in Hok; try discriminate Hok;
      cbn [on_clicked] in H.
    + unfold __reset_app in H. apply bind_Some in H. destruct H as (a & Ha & Hb).
      injection Hb as <-. split; [|reflexivity].
      change (is_stoppable a = false).
      rewrite <- Hst.
      apply (setValue_preserves (fun x => is_stoppable x = is_stoppable s)) in Ha;
        [exact Ha| |intros x Hx; exact Hx|reflexivity].
      intros m x Hx.
      rewrite (handle_keeps (fun y => is_stoppable y) m x (fun _ => eq_refl)).
      exact Hx.
    + injection H as <-. unfold __play_all_frames, stop_locked. eval_state.
      rewrite Hst. eval_state. split; assumption.
    + injection H as <-. split; [exact Hst|reflexivity].
    + injection H as <-. unfold __pause_all_frames, stop_locked. eval_state.
      rewrite Hst. eval_state. split; assumption.
    + exact (load_webcam_preserves _ Hh _ _ (fun _ _ Hx => Hx) (fun _ Hx => Hx) H
               (conj Hst Hbt)).
  - injection H as <-. destruct Hs as [Hst Hbt].
    unfold __set_webcam_port, __play_all_frames, stop_locked. eval_state.
    split; [reflexivity|exact Hbt].
  - assert (Hp : p <> Flag false).
    { intros ->. destruct sig; discriminate Hok. }
    exact (deliver_preserves_payload _ p (fun sl x x' Hr Hx =>
             run_slot_stop_locked sl p x x' Hp Hr Hx) _ _ _ H Hs).
Qed.

(** A webcam run offers no stop: if the stop control is disabled when the
    webcam port arrives, the run stays not stoppable and the stop control
    stays disabled through every run of events without a click on load and
    without a completion signal that says not finished (start, pause and a
    reset included), and a click on the stop control changes nothing. *)
Theorem webcam_run_offers_no_stop : forall E fuel port evs name s s',
  button_enabled (ui s) stop_video_button = false ->
  forallb (fun ev => negb (unlocks_stop ev)) evs = true ->
  steps E fuel evs (__set_webcam_port port s) = Some s' ->
  is_stoppable s' = false /\
  button_enabled (ui s') stop_video_button = false /\
  step E fuel (UserClicks stop_video_button name) s' = Some s'.
Proof.
  intros E fuel port evs name s s' Hbt Hok H. apply steps_reacts in H.
  assert (H0 : stop_locked (__set_webcam_port port s)).
  { unfold __set_webcam_port, __play_all_frames, stop_locked. eval_state.
    split; [reflexivity|exact Hbt]. }
  destruct (reacts_invariant E stop_locked (fun ev => negb (unlocks_stop ev))
              (fun ev x x' Hev Hx Hr =>
                 react_stop_locked E ev x x' (proj1 (negb_true_iff _) Hev) Hx Hr)
              evs _ s' Hok H0 H) as [Hst Hb'].
  split; [exact Hst|]. split; [exact Hb'|].
  cbn [step]. rewrite Hb'. reflexivity.
Qed.

(** The stop control over a webcam run that is paused, resumed,
    reported finished and reset. *)
Lemma webcam_run_offers_no_stop_witness :
  let evs := [ UserClicks pause_video_button "";
               UserClicks play_video_button "";
               UserClicks stop_video_button "";
               WorkerSignal finish_signal (Flag true);
               UserClicks reset_button "" ] in
  exists s',
    steps example_external 2 evs webcam_window = Some s' /\
    is_stoppable s' = false /\
    button_enabled (ui s') stop_video_button = false.
Proof.
  intros evs.
  run_concrete example_external evs webcam_window s' H.
  exists s'. split; [reflexivity|].
  destruct (webcam_run_offers_no_stop example_external 2 0 evs "" example_window s'
              eq_refl eq_refl H) as (Hst & Hbt & _).
  split; [exact Hst|exact Hbt].
Defined.
